(** * dataloader.js: client profile, geolocation lookup and log transfer

    A shallow embedding of [src/dataloader.js].  Strings are Rocq strings,
    sequences of code units of which the ASCII ones are told apart: what
    the engine does to a string with other code units when it changes case
    is a parameter.  JavaScript values are an inductive type, objects are
    association lists in insertion order, and the asynchronous functions
    live in a small monad that records the console output and the requests
    issued, and carries thrown errors. *)

From Stdlib Require Import ZArith QArith Qabs Qround Bool List Lia.
From Stdlib Require Import Ascii String DecimalString.
Import ListNotations.

Open Scope string_scope.

(** ** String primitives of the host *)

Module Str.

(** [String.prototype.includes]: [t] occurs somewhere in [s]. *)
Fixpoint includes (s t : string) : bool :=
  if String.prefix t s then true
  else match s with
       | EmptyString => false
       | String _ s' => includes s' t
       end.

Definition is_digit (c : ascii) : bool :=
  let n := nat_of_ascii c in (48 <=? n)%nat && (n <=? 57)%nat.

(** The longest run of decimal digits at the head of [s]: the group
    [(\d+)] of the version patterns, which is greedy. *)
Fixpoint take_digits (s : string) : string :=
  match s with
  | String c s' => if is_digit c then String c (take_digits s') else EmptyString
  | EmptyString => EmptyString
  end.

(** [drop n s] is [s] without its first [n] code units. *)
Fixpoint drop (n : nat) (s : string) : string :=
  match n, s with
  | O, _ => s
  | S n', String _ s' => drop n' s'
  | S _, EmptyString => EmptyString
  end.

(** [s.match(/label(\d+)/)?.[1]]: at the leftmost position where [label]
    is followed by one digit at least, the digits; [None] when the pattern
    matches nowhere. *)
Fixpoint match_digits_after (label s : string) : option string :=
  let here :=
    if String.prefix label s
    then take_digits (drop (String.length label) s)
    else EmptyString in
  match here with
  | String _ _ => Some here
  | EmptyString =>
      match s with
      | EmptyString => None
      | String _ s' => match_digits_after label s'
      end
  end.

Definition upper_ascii (c : ascii) : ascii :=
  let n := nat_of_ascii c in
  if (97 <=? n)%nat && (n <=? 122)%nat then ascii_of_nat (n - 32) else c.

(** The case folding of a pattern with the flag [i] and without the flag
    [u]: an ASCII letter goes to its capital, and a code unit outside
    ASCII never folds to an ASCII one. *)
Fixpoint fold_case (s : string) : string :=
  match s with
  | EmptyString => EmptyString
  | String c s' => String (upper_ascii c) (fold_case s')
  end.

(** [/a1|a2|.../i.test(s)] for alternatives that are plain ASCII words. *)
Definition test_any_ci (alternatives : list string) (s : string) : bool :=
  existsb (fun a => includes (fold_case s) (fold_case a)) alternatives.

Fixpoint all_ascii (s : string) : bool :=
  match s with
  | EmptyString => true
  | String c s' => (nat_of_ascii c <? 128)%nat && all_ascii s'
  end.

Definition is_empty (s : string) : bool :=
  match s with EmptyString => true | String _ _ => false end.

(** Decimal digits of an integer, as [Number::toString] prints them. *)
Definition of_Z (z : Z) : string := NilZero.string_of_int (Z.to_int z).

Fixpoint zeros (n : nat) : string :=
  match n with O => EmptyString | S n' => String "0" (zeros n') end.

End Str.

(** ** Classification of the user agent *)

(** Simple function to determine the OS based on the User Agent String. *)
Definition getOperatingSystem (userAgent : string) : string :=
  if Str.includes userAgent "Win" then "Windows"
  else if Str.includes userAgent "Android" then "Android"
  else if Str.includes userAgent "Mac" then "macOS (Apple)"
  else if Str.includes userAgent "Linux" then "Linux"
  else if Str.includes userAgent "CrOS" then "Chrome OS"
  else if Str.includes userAgent "iPhone" || Str.includes userAgent "iPad"
       then "iOS (Apple)"
  else "Unknown/Other".

(** [userAgent.match(/label(\d+)/)?.[1] || ""]. *)
Definition version_after (label userAgent : string) : string :=
  match Str.match_digits_after label userAgent with
  | Some digits => digits
  | None => ""
  end.

(** The last line of [getBrowser]:
    [version ? `${browser} (v${version})` : browser]. *)
Definition browser_label (browser version : string) : string :=
  if Str.is_empty version then browser
  else browser ++ " (v" ++ version ++ ")".

(** Simple function to determine the browser based on the User Agent
    String. *)
Definition getBrowser (userAgent : string) : string :=
  let '(browser, version) :=
    if Str.includes userAgent "Chrome" && negb (Str.includes userAgent "Edg")
    then ("Chrome", version_after "Chrome/" userAgent)
    else if Str.includes userAgent "Firefox"
    then ("Firefox", version_after "Firefox/" userAgent)
    else if Str.includes userAgent "Safari"
            && negb (Str.includes userAgent "Chrome")
    then ("Safari", version_after "Version/" userAgent)
    else if Str.includes userAgent "Edg"
    then ("Edge", version_after "Edg/" userAgent)
    else if Str.includes userAgent "MSIE" || Str.includes userAgent "Trident"
    then ("Internet Explorer", "")
    else ("Unknown", "") in
  browser_label browser version.

(** ** Numbers and values *)

(** A JavaScript number, by its exact value: every finite double is a
    rational.  Negative zero is not told apart from zero: the program
    only tests numbers for truthiness and prints them, and both treat the
    two zeros alike. *)
Inductive number : Type :=
| NaN
| Infinity (negative : bool)
| Finite (q : Q).

(** A value as [JSON.parse] builds it, with [undefined] for what is absent.
    An object lists its own properties, under different keys, in insertion
    order. *)
#[warnings="-register-all"] Inductive jsval : Type :=
| JUndefined
| JNull
| JBool (b : bool)
| JNum (n : number)
| JStr (s : string)
| JArr (elements : list jsval)
| JObj (properties : list (string * jsval)).

(** A thrown [Error] object; the program reads only its [message]. *)
Record JsError : Type := Error { message : string }.

Definition num_truthy (n : number) : bool :=
  match n with
  | NaN => false
  | Infinity _ => true
  | Finite q => negb (Qnum q =? 0)%Z
  end.

(** ToBoolean. *)
Definition truthy (v : jsval) : bool :=
  match v with
  | JUndefined | JNull => false
  | JBool b => b
  | JNum n => num_truthy n
  | JStr s => negb (Str.is_empty s)
  | JArr _ | JObj _ => true
  end.

(** [v === s] for a string [s]. *)
Definition strict_eq_str (v : jsval) (s : string) : bool :=
  match v with
  | JStr t => String.eqb t s
  | _ => false
  end.

Definition is_integer (q : Q) : bool :=
  (Qnum q mod Zpos (Qden q) =? 0)%Z.

Definition ten_pow_21 : Q := inject_Z (10 ^ 21).

Fixpoint lookup (k : string) (l : list (string * jsval)) : jsval :=
  match l with
  | [] => JUndefined
  | (k', v) :: l' => if String.eqb k' k then v else lookup k l'
  end.

(** Writing a property: an existing key keeps its place and takes the new
    value, a new key goes last. *)
Fixpoint set_prop (k : string) (v : jsval) (l : list (string * jsval))
  : list (string * jsval) :=
  match l with
  | [] => [(k, v)]
  | (k', v') :: l' =>
      if String.eqb k' k then (k, v) :: l' else (k', v') :: set_prop k v l'
  end.

Fixpoint indexed {A : Type} (i : Z) (l : list A) : list (string * A) :=
  match l with
  | [] => []
  | x :: l' => (Str.of_Z i, x) :: indexed (i + 1) l'
  end.

Fixpoint chars (s : string) : list jsval :=
  match s with
  | EmptyString => []
  | String c s' => JStr (String c EmptyString) :: chars s'
  end.

(** The own enumerable properties that a spread copies. *)
Definition own_properties (v : jsval) : list (string * jsval) :=
  match v with
  | JObj l => l
  | JArr l => indexed 0 l
  | JStr s => indexed 0 (chars s)
  | _ => []
  end.

(** [{...a, ...b}]. *)
Definition spread (sources : list jsval) : jsval :=
  JObj (fold_left
          (fun acc src =>
             fold_left (fun acc' kv => set_prop (fst kv) (snd kv) acc')
                       (own_properties src) acc)
          sources []).

Definition keys (v : jsval) : list string := map fst (own_properties v).

(** Reading a property of an object literal that the program has built. *)
Definition field (v : jsval) (k : string) : jsval := lookup k (own_properties v).

(** ** The host: browser environment, network and console *)

(** The result of a computation that may throw. *)
Inductive outcome (A : Type) : Type :=
| Return (a : A)
| Throw (e : JsError).
Arguments Return {A} a.
Arguments Throw {A} e.

Record NetworkInformation : Type := {
  effectiveType : option string;
  downlink : option number
}.

(** [navigator]: the three places where a browser may expose the
    connection object, each possibly absent, and the language tag. *)
Record Navigator : Type := {
  nav_userAgent : string;
  nav_connection : option NetworkInformation;
  nav_mozConnection : option NetworkInformation;
  nav_webkitConnection : option NetworkInformation;
  nav_language : option string
}.

Record Screen : Type := { screen_width : Z; screen_height : Z }.

(** The instant [new Date()] of a call, by the two renderings the program
    asks for; the second takes the locale argument, [None] for
    [undefined], and the fixed formatting options, and throws a
    [RangeError] when the host does not accept the argument as a language
    tag, as for the empty string. *)
Record DateNow : Type := {
  toISOString : string;
  toLocaleTimeString : option string -> outcome string
}.

Record Browser : Type := {
  navigator : Navigator;
  screen : Screen;
  now : DateNow
}.

Record RequestInit : Type := {
  method : string;
  headers : list (string * string);
  body : option string
}.

(** A response: its status code and what [response.json()] gives, a
    decoded value or a thrown parse error. *)
Record Response : Type := {
  status : Z;
  json : outcome jsval
}.

(** [response.ok]: the status is in the range 200-299. *)
Definition ok (r : Response) : bool :=
  (200 <=? status r)%Z && (status r <=? 299)%Z.

(** What the promise of a [fetch] settles to. *)
Inductive FetchResult : Type :=
| Rejected (e : JsError)
| Resolved (r : Response).

(** The network: how each request is answered.  A run issues at most two
    requests, to different addresses, so a function covers every run. *)
Definition Network : Type := string -> option RequestInit -> FetchResult.

(** What a run does that can be seen from outside. *)
Inductive event : Type :=
| Fetched (url : string) (init : option RequestInit)
| ConsoleLog (text : string)
| ConsoleError (text : string) (detail : option JsError).

(** An asynchronous computation: its result, or the error it throws, and
    the events it caused, in order. *)
Definition Async (A : Type) : Type := (outcome A * list event)%type.

Definition ret {A : Type} (a : A) : Async A := (Return a, []).

Definition throw {A : Type} (e : JsError) : Async A := (Throw e, []).

Definition bind {A B : Type} (m : Async A) (f : A -> Async B) : Async B :=
  match m with
  | (Return a, t) => let (r, t') := f a in (r, (t ++ t')%list)
  | (Throw e, t) => (Throw e, t)
  end.

(** [try { m } catch (error) { handler error }]. *)
Definition try_catch {A : Type} (m : Async A) (handler : JsError -> Async A)
  : Async A :=
  match m with
  | (Return a, t) => (Return a, t)
  | (Throw e, t) => let (r, t') := handler e in (r, (t ++ t')%list)
  end.

Definition emit (ev : event) : Async unit := (Return tt, [ev]).

Notation "x <- m ;; k" := (bind m (fun x => k))
  (at level 100, m at next level, right associativity).
Notation "m ;;; k" := (bind m (fun _ => k))
  (at level 100, right associativity).

Definition console_log (text : string) : Async unit := emit (ConsoleLog text).

Definition console_error (text : string) (detail : option JsError) : Async unit :=
  emit (ConsoleError text detail).

(** [await fetch(url, init)]. *)
Definition fetch (net : Network) (url : string) (init : option RequestInit)
  : Async Response :=
  (match net url init with
   | Rejected e => Throw e
   | Resolved r => Return r
   end, [Fetched url init]).

(** [await response.json()]. *)
Definition response_json (r : Response) : Async jsval := (json r, []).

(** ** Constants *)

(** Alternate API (ip-api.com) for GeoLocation. *)
Definition ALTERNATE_IP_API_URL : string := "http://ip-api.com/json".

(** The endpoint where the data will be POSTed. *)
Definition LOGGING_ENDPOINT : string :=
  "https://data-store-id-3476854t7ewgbm09us.vercel.app/".

(** ** Sample hosts and answers

    Concrete inputs on which the statements below are exercised. *)

(** A printer for the numbers that are not integers; the sample inputs
    print integers only, so its answer is never used. *)
Definition sample_decimal (q : Q) : string := "1.5".

(** The wording of V8. *)
Definition v8_cannot_read (v : jsval) (k : string) : string :=
  "Cannot read properties of "
  ++ match v with JNull => "null" | _ => "undefined" end
  ++ " (reading '" ++ k ++ "')".

Definition geo_success : jsval :=
  JObj [("status", JStr "success"); ("query", JStr "1.2.3.4");
        ("isp", JStr "ACME"); ("as", JStr "AS1 ACME");
        ("countryCode", JStr "US"); ("regionName", JStr "CA");
        ("city", JStr "X"); ("zip", JStr "90000");
        ("lat", JNum (Finite 1.0)); ("lon", JNum (Finite 2.0));
        ("timezone", JStr "UTC")].

Definition geo_fail : jsval :=
  JObj [("status", JStr "fail"); ("message", JStr "invalid query")].

Definition geo_bare : jsval := JObj [("status", JStr "success")].

(** The geolocation service answers 200 with [geo]; the log endpoint
    answers with status [log_status] and no body. *)
Definition sample_net (geo : jsval) (log_status : Z) : Network :=
  fun url _ =>
    if String.eqb url ALTERNATE_IP_API_URL
    then Resolved {| status := 200; json := Return geo |}
    else Resolved {| status := log_status;
                     json := Throw (Error "Unexpected end of JSON input") |}.

Definition sample_browser (c : option NetworkInformation) : Browser :=
  {| navigator :=
       {| nav_userAgent :=
            "Mozilla/5.0 (Linux; Android 10) AppleWebKit/537.36 Chrome/91.0.4472.77 Mobile Safari/537.36";
          nav_connection := c;
          nav_mozConnection := None;
          nav_webkitConnection := None;
          nav_language := Some "en-US" |};
     screen := {| screen_width := 1920; screen_height := 1080 |};
     now := {| toISOString := "2024-01-01T00:00:00.000Z";
               toLocaleTimeString :=
                 fun locale =>
                   match locale with
                   | Some EmptyString =>
                       Throw (Error "Incorrect locale information provided")
                   | _ => Return "Mon, Jan 1, 2024, 12:00 AM"
                   end |} |}.

(** A browser whose language is the empty string. *)
Definition browser_without_language : Browser :=
  {| navigator :=
       {| nav_userAgent := nav_userAgent (navigator (sample_browser None));
          nav_connection := None;
          nav_mozConnection := None;
          nav_webkitConnection := None;
          nav_language := Some EmptyString |};
     screen := screen (sample_browser None);
     now := now (sample_browser None) |}.

(** A browser that exposes its connection object as [mozConnection]
    only. *)
Definition moz_browser (c : NetworkInformation) : Browser :=
  {| navigator :=
       {| nav_userAgent := nav_userAgent (navigator (sample_browser None));
          nav_connection := None;
          nav_mozConnection := Some c;
          nav_webkitConnection := None;
          nav_language := Some "en-US" |};
     screen := screen (sample_browser None);
     now := now (sample_browser None) |}.

(** The engine's mapping is not asked for at the sample inputs. *)
Definition sample_upper (s : string) : string := s.

(** The wording of V8. *)
Definition v8_cannot_convert : string :=
  "Cannot convert object to primitive value".

Definition conn_4g : NetworkInformation :=
  {| effectiveType := Some "4g"; downlink := Some (Finite 10.25) |}.

(** A user agent of Windows Phone 10, which names Android as well. *)
Definition ua_windows_phone : string :=
  "Mozilla/5.0 (Windows Phone 10.0; Android 6.0.1; Microsoft; Lumia 950) AppleWebKit/537.36 (KHTML, like Gecko) Chrome/52.0.2743.116 Mobile Safari/537.36 Edge/15.15254".

Definition ua_android : string :=
  "Mozilla/5.0 (Linux; Android 10; SM-G960U) AppleWebKit/537.36 (KHTML, like Gecko) Chrome/91.0.4472.77 Mobile Safari/537.36".

Definition ua_edge : string :=
  "Mozilla/5.0 (Windows NT 10.0; Win64; x64) AppleWebKit/537.36 (KHTML, like Gecko) Chrome/91.0.4472.124 Safari/537.36 Edg/91.0.864.59".

Definition ua_chrome_edg_firefox : string := "Chrome/91.0 Edg/91.0 Firefox/89.0".

(** ** Observations on a run *)

(** A request to [url] is among the events: for [LOGGING_ENDPOINT], the
    transmitter has sent a payload. *)
Definition requested (url : string) (t : list event) : bool :=
  existsb (fun ev => match ev with
                     | Fetched u _ => String.eqb u url
                     | _ => false
                     end) t.

(** [undefined] is what an absent property reads as. *)
Definition populated (v : jsval) : bool :=
  match v with JUndefined => false | _ => true end.

Definition is_string (v : jsval) : bool :=
  match v with JStr _ => true | _ => false end.

Definition nullish (v : jsval) : bool :=
  match v with JUndefined | JNull => true | _ => false end.

Definition client_keys : list string :=
  ["name"; "logTimestamp"; "os"; "browser"; "resolution"; "deviceType";
   "connectionSpeed"; "browserLanguage"; "localTimeFormatted"; "userAgent"].

Definition geo_keys : list string :=
  ["ip"; "org"; "asn"; "countryCode"; "region"; "city"; "zip"; "coords";
   "timezone"; "apiSource"].

(** Two browsers that differ at most in their connection objects. *)
Definition same_but_connection (env env' : Browser) : Prop :=
  nav_userAgent (navigator env) = nav_userAgent (navigator env')
  /\ nav_language (navigator env) = nav_language (navigator env')
  /\ screen env = screen env'
  /\ now env = now env'.

(** [k] is an own property of the object with the properties [l]. *)
Definition has_own (k : string) (l : list (string * jsval)) : bool :=
  existsb (fun kv => String.eqb (fst kv) k) l.

Definition two_pow_53 : Q := inject_Z (2 ^ 53).

(** An outcome as a computation without events. *)
Definition lift {A : Type} (o : outcome A) : Async A := (o, []).

(** Every code unit of [s] is a decimal digit. *)
Fixpoint all_digits (s : string) : bool :=
  match s with
  | EmptyString => true
  | String c s' => Str.is_digit c && all_digits s'
  end.

Definition starts_with_digit (s : string) : bool :=
  match s with
  | String c _ => Str.is_digit c
  | EmptyString => false
  end.

(** The names that [getBrowser] gives. *)
Definition browser_names : list string :=
  ["Chrome"; "Firefox"; "Safari"; "Edge"; "Internet Explorer"; "Unknown"].

(** Every request is answered with status [st] and body [j]. *)
Definition net_status (st : Z) (j : outcome jsval) : Network :=
  fun _ _ => Resolved {| status := st; json := j |}.

(** Every request is rejected with [e]. *)
Definition net_down (e : JsError) : Network := fun _ _ => Rejected e.

Section Host.

(** [Number::toString] of a finite number that is not an integer of
    magnitude 2^53 at most is built from the engine's shortest round-trip
    digits; the program's behaviour is stated for any such printer. *)
Variable shortest_decimal : Q -> string.

(** The engine's wording of the [TypeError] for reading property [k] of
    [undefined] or [null]. *)
Variable cannot_read_property : jsval -> string -> string.

(** The engine's wording of the [TypeError] for an object that has no
    primitive value. *)
Variable cannot_convert : string.

(** [String.prototype.toUpperCase] on a string that has a code unit outside
    ASCII: the engine's Unicode mapping. *)
Variable unicode_upper : string -> string.

(** [String.prototype.toUpperCase]. *)
Definition toUpperCase (s : string) : string :=
  if Str.all_ascii s then Str.fold_case s else unicode_upper s.

Definition Number_toString (n : number) : string :=
  match n with
  | NaN => "NaN"
  | Infinity false => "Infinity"
  | Infinity true => "-Infinity"
  | Finite q =>
      if is_integer q && Qle_bool (Qabs q) two_pow_53
      then Str.of_Z (Qnum q / Zpos (Qden q))
      else shortest_decimal q
  end.

(** [Number.prototype.toFixed(f)]: the sign, then the integer [n] nearest
    to [x * 10^f] (the larger one on a tie) with a point before its last
    [f] digits. *)
Definition toFixed (x : number) (f : nat) : string :=
  match x with
  | Finite q =>
      let s := if (Qnum q <? 0)%Z then "-" else "" in
      let a := Qabs q in
      if Qle_bool ten_pow_21 a then s ++ Number_toString (Finite a)
      else
        let n := Qfloor (a * inject_Z (10 ^ Z.of_nat f) + (1 # 2)) in
        let m := Str.of_Z n in
        let m :=
          match f with
          | O => m
          | S _ =>
              let k := String.length m in
              let m := if (k <=? f)%nat then Str.zeros (f + 1 - k) ++ m else m in
              let k := String.length m in
              String.substring 0 (k - f) m ++ "." ++ String.substring (k - f) f m
          end in
        s ++ m
  | _ => Number_toString x
  end.

(** ToString, as a template literal and [new Error(v)] apply it.  A
    decoded object has no callable property of its own: with an own
    property named toString it has no primitive value and the conversion
    throws, without one it prints as [Object.prototype.toString] does.  An
    array prints its elements, joined. *)
Fixpoint ToString (v : jsval) : outcome string :=
  match v with
  | JUndefined => Return "undefined"
  | JNull => Return "null"
  | JBool true => Return "true"
  | JBool false => Return "false"
  | JNum n => Return (Number_toString n)
  | JStr s => Return s
  | JArr l =>
      let element x :=
        match x with
        | JUndefined | JNull => Return EmptyString
        | _ => ToString x
        end in
      (fix join (l : list jsval) : outcome string :=
         match l with
         | [] => Return EmptyString
         | [x] => element x
         | x :: l' =>
             match element x with
             | Throw e => Throw e
             | Return first =>
                 match join l' with
                 | Throw e => Throw e
                 | Return others => Return (first ++ "," ++ others)
                 end
             end
         end) l
  | JObj l =>
      if has_own "toString" l then Throw (Error cannot_convert)
      else Return "[object Object]"
  end.

(** *** JSON.stringify *)

Definition dquote : string := String (ascii_of_nat 34) EmptyString.

Definition hex_digit (n : nat) : string :=
  String.substring n 1 "0123456789abcdef".

Definition quote_char (c : ascii) : string :=
  let n := nat_of_ascii c in
  if (n =? 34)%nat then "\" ++ dquote
  else if (n =? 92)%nat then "\\"
  else if (n =? 8)%nat then "\b"
  else if (n =? 9)%nat then "\t"
  else if (n =? 10)%nat then "\n"
  else if (n =? 12)%nat then "\f"
  else if (n =? 13)%nat then "\r"
  else if (n <? 32)%nat then "\u00" ++ hex_digit (n / 16) ++ hex_digit (n mod 16)
  else String c EmptyString.

Fixpoint quote_chars (s : string) : string :=
  match s with
  | EmptyString => EmptyString
  | String c s' => quote_char c ++ quote_chars s'
  end.

Definition quote (s : string) : string := dquote ++ quote_chars s ++ dquote.

Fixpoint comma_join (l : list string) : string :=
  match l with
  | [] => ""
  | [x] => x
  | x :: l' => x ++ "," ++ comma_join l'
  end.

(** [JSON.stringify(v)]; [None] is [undefined].  A property whose value
    is [undefined] is left out of an object; in an array it is written
    [null]. *)
Fixpoint JSON_stringify (v : jsval) : option string :=
  match v with
  | JUndefined => None
  | JNull => Some "null"
  | JBool b => Some (if b then "true" else "false")
  | JNum (Finite q) => Some (Number_toString (Finite q))
  | JNum _ => Some "null"
  | JStr s => Some (quote s)
  | JArr l =>
      Some ("[" ++ comma_join
              ((fix elements (l : list jsval) : list string :=
                  match l with
                  | [] => []
                  | x :: l' =>
                      match JSON_stringify x with
                      | Some t => t
                      | None => "null"
                      end :: elements l'
                  end) l) ++ "]")
  | JObj l =>
      Some ("{" ++ comma_join
              ((fix members (l : list (string * jsval)) : list string :=
                  match l with
                  | [] => []
                  | (k, x) :: l' =>
                      match JSON_stringify x with
                      | Some t => (quote k ++ ":" ++ t) :: members l'
                      | None => members l'
                      end
                  end) l) ++ "}")
  end.

(** *** The program *)

(** [v.k] for the property names the program reads, none of which is a
    built-in property: reading from [undefined] or [null] throws, reading
    any other value gives the own property or [undefined]. *)
Definition get_prop (v : jsval) (k : string) : Async jsval :=
  match v with
  | JUndefined | JNull => throw (Error (cannot_read_property v k))
  | _ => ret (field v k)
  end.

Definition or_else {A : Type} (a b : option A) : option A :=
  match a with Some _ => a | None => b end.

(** [navigator.connection || navigator.mozConnection ||
    navigator.webkitConnection]. *)
Definition connection_of (nav : Navigator) : option NetworkInformation :=
  or_else (nav_connection nav)
          (or_else (nav_mozConnection nav) (nav_webkitConnection nav)).

(** Collects all client-side data into an object. *)
Definition collectClientData (env : Browser) (clientName : jsval)
  : outcome jsval :=
  let clientName :=
    match clientName with JUndefined => JStr "Anonymous" | _ => clientName end in
  let userAgent := nav_userAgent (navigator env) in
  let connection := connection_of (navigator env) in
  let effectiveType :=
    match connection with
    | Some c =>
        match effectiveType c with
        | Some t => if negb (Str.is_empty t) then toUpperCase t else "N/A"
        | None => "N/A"
        end
    | None => "N/A"
    end in
  let speed :=
    match connection with
    | Some c =>
        match downlink c with
        | Some d => if num_truthy d then toFixed d 1 ++ " Mbps" else "N/A"
        | None => "N/A"
        end
    | None => "N/A"
    end in
  let isMobile :=
    Str.test_any_ci ["Mobi"; "Android"; "iPhone"; "iPad"; "Windows Phone"]
                    userAgent in
  let now := now env in
  match toLocaleTimeString now (nav_language (navigator env)) with
  | Throw e => Throw e
  | Return localTimeFormatted =>
      Return (JObj [
        ("name", clientName);
        ("logTimestamp", JStr (toISOString now));
        ("os", JStr (getOperatingSystem userAgent));
        ("browser", JStr (getBrowser userAgent));
        ("resolution",
          JStr (Str.of_Z (screen_width (screen env)) ++ "x"
                ++ Str.of_Z (screen_height (screen env))));
        ("deviceType", JStr (if isMobile then "Mobile/Tablet" else "Desktop"));
        ("connectionSpeed", JStr (effectiveType ++ " (" ++ speed ++ ")"));
        ("browserLanguage",
          JStr (match nav_language (navigator env) with
                | Some l => if negb (Str.is_empty l) then l else "N/A"
                | None => "N/A"
                end));
        ("localTimeFormatted", JStr localTimeFormatted);
        ("userAgent", JStr userAgent)
      ])
  end.

(** Fetches geolocation data from the ALTERNATE API (ip-api.com). *)
Definition fetchAlternateGeoData (net : Network) : Async jsval :=
  try_catch
    (response <- fetch net ALTERNATE_IP_API_URL None ;;
     (if negb (ok response)
      then throw (Error ("HTTP error from ip-api.com! Status: "
                         ++ Str.of_Z (status response)))
      else ret tt) ;;;
     geoData <- response_json response ;;
     geo_status <- get_prop geoData "status" ;;
     if truthy geo_status && strict_eq_str geo_status "success"
     then
       query <- get_prop geoData "query" ;;
       isp <- get_prop geoData "isp" ;;
       as_ <- get_prop geoData "as" ;;
       countryCode <- get_prop geoData "countryCode" ;;
       regionName <- get_prop geoData "regionName" ;;
       city <- get_prop geoData "city" ;;
       zip <- get_prop geoData "zip" ;;
       lat <- get_prop geoData "lat" ;;
       lat_text <- lift (ToString lat) ;;
       lon <- get_prop geoData "lon" ;;
       lon_text <- lift (ToString lon) ;;
       timezone <- get_prop geoData "timezone" ;;
       ret (JObj [
         ("ip", query);
         ("org", isp);
         ("asn", as_);
         ("countryCode", countryCode);
         ("region", regionName);
         ("city", city);
         ("zip", zip);
         ("coords", JStr (lat_text ++ "," ++ lon_text));
         ("timezone", timezone);
         ("apiSource", JStr "ip-api.com")
       ])
     else
       geo_message <- get_prop geoData "message" ;;
       text <- lift (ToString
                       (if truthy geo_message then geo_message
                        else JStr "Alternate API returned failure status.")) ;;
       throw (Error text))
    (fun error =>
       console_error "Error fetching data from alternate API:" (Some error) ;;;
       throw (Error ("Failed to retrieve alternate geolocation data: "
                     ++ message error))).

(** The request that [sendDataToLog] issues for [data]. *)
Definition log_request (data : jsval) : RequestInit :=
  {| method := "POST";
     headers := [("Content-Type", "application/json")];
     body := JSON_stringify data |}.

(** Sends the collected data payload to the external logging endpoint. *)
Definition sendDataToLog (net : Network) (data : jsval) : Async bool :=
  try_catch
    (response <- fetch net LOGGING_ENDPOINT (Some (log_request data)) ;;
     (if ok response
      then console_log "User data successfully logged to external service."
      else console_error ("Failed to log data. Status: "
                          ++ Str.of_Z (status response) ++ ".") None) ;;;
     ret (ok response))
    (fun error =>
       console_error "Error during data logging fetch operation:" (Some error) ;;;
       ret false).

(** Runs the collection and the transfer. *)
Definition runAlternateDataTransfer (net : Network) (env : Browser)
  (clientName : jsval) : Async jsval :=
  console_log
    "Starting data collection and transfer using Alternate API structure..." ;;;
  try_catch
    (clientData <- lift (collectClientData env clientName) ;;
     geoData <- fetchAlternateGeoData net ;;
     let fullPayload := spread [clientData; geoData] in
     success <- sendDataToLog net fullPayload ;;
     (if success
      then console_log "Full payload successfully transferred to logging server."
      else console_log "Data transfer failed.") ;;;
     ret fullPayload)
    (fun error =>
       console_error ("Data transfer process failed: " ++ message error) None ;;;
       ret JNull).

(** ** Properties *)

(** *** Strings *)

Lemma prefix_app (t b : string) : String.prefix t (t ++ b) = true.
Proof.
  induction t as [|c t IH]; simpl.
  - destruct b; reflexivity.
  - destruct (ascii_dec c c) as [_|ne]; [exact IH | contradiction].
Qed.

Lemma prefix_split (t s : string) :
  String.prefix t s = true -> exists b, s = t ++ b.
Proof.
  revert s; induction t as [|c t IH]; intros s H.
  - exists s; reflexivity.
  - destruct s as [|d s]; simpl in H; [discriminate|].
    destruct (ascii_dec c d) as [->|_]; [|discriminate].
    destruct (IH s H) as [b ->]. exists b; reflexivity.
Qed.

Lemma includes_prefix (s t : string) :
  String.prefix t s = true -> Str.includes s t = true.
Proof. intros H. destruct s; cbn [Str.includes]; rewrite H; reflexivity. Qed.

(** [includes] finds every occurrence. *)
Lemma includes_app (a t b : string) : Str.includes (a ++ t ++ b) t = true.
Proof.
  induction a as [|c a IH].
  - change ("" ++ t ++ b) with (t ++ b). apply includes_prefix, prefix_app.
  - cbn [append Str.includes]. rewrite IH.
    destruct (String.prefix _ _); reflexivity.
Qed.

(** [includes] finds nothing else. *)
Lemma includes_split (s t : string) :
  Str.includes s t = true -> exists a b, s = a ++ t ++ b.
Proof.
  induction s as [|c s IH]; cbn [Str.includes]; intros H.
  - destruct (String.prefix t "") eqn:P; [|discriminate].
    destruct (prefix_split _ _ P) as [b ->]. exists "", b; reflexivity.
  - destruct (String.prefix t (String c s)) eqn:P.
    + destruct (prefix_split _ _ P) as [b E]. exists "", b; exact E.
    + destruct (IH H) as (a & b & ->). exists (String c a), b; reflexivity.
Qed.


(** *** The monad *)

Lemma bind_ret {A B : Type} (a : A) (f : A -> Async B) : bind (ret a) f = f a.
Proof. unfold bind, ret. destruct (f a); reflexivity. Qed.

Lemma bind_lift_return {A B : Type} (a : A) (f : A -> Async B) :
  bind (lift (Return a)) f = f a.
Proof. exact (bind_ret a f). Qed.

Lemma requested_app (url : string) (t t' : list event) :
  requested url (t ++ t') = requested url t || requested url t'.
Proof. apply existsb_app. Qed.

Lemma ok_in_range (st : Z) (j : outcome jsval) :
  (200 <= st <= 299)%Z -> ok {| status := st; json := j |} = true.
Proof.
  intros [H1 H2]. unfold ok; cbn [status].
  apply andb_true_intro; split; apply Z.leb_le; assumption.
Qed.

Lemma get_prop_defined (v : jsval) (k : string) :
  nullish v = false -> get_prop v k = ret (field v k).
Proof. destruct v; simpl; intros H; try discriminate; reflexivity. Qed.

(** *** The user agent *)

(** C4, as the code has it: a user agent that contains "Android" and does
    not contain "Win", which is tested first, is classified as Android,
    whatever else it contains. *)
Theorem getOperatingSystem_android (userAgent : string) :
  Str.includes userAgent "Android" = true ->
  Str.includes userAgent "Win" = false ->
  getOperatingSystem userAgent = "Android".
Proof.
  intros HA HW. unfold getOperatingSystem. rewrite HW, HA. reflexivity.
Qed.

(** C5, as the code has it: a user agent that contains "Chrome" and "Edg"
    is never classified as Chrome; it is classified as Edge, with the
    version that follows "Edg/" when there is one, provided it does not
    contain "Firefox", which is tested before Edge. *)
Theorem getBrowser_chrome_edg (userAgent : string) :
  Str.includes userAgent "Chrome" = true ->
  Str.includes userAgent "Edg" = true ->
  String.prefix "Chrome" (getBrowser userAgent) = false
  /\ (Str.includes userAgent "Firefox" = false ->
      getBrowser userAgent
      = browser_label "Edge" (version_after "Edg/" userAgent)
      /\ String.prefix "Edge" (getBrowser userAgent) = true).
Proof.
  intros HC HE.
  assert (E : getBrowser userAgent
              = if Str.includes userAgent "Firefox"
                then browser_label "Firefox" (version_after "Firefox/" userAgent)
                else browser_label "Edge" (version_after "Edg/" userAgent)).
  { unfold getBrowser. rewrite HC, HE. cbn [negb andb].
    rewrite andb_false_r.
    destruct (Str.includes userAgent "Firefox"); reflexivity. }
  rewrite E. unfold browser_label. split.
  - destruct (Str.includes userAgent "Firefox");
      match goal with
      | |- context [Str.is_empty ?v] => destruct (Str.is_empty v); reflexivity
      end.
  - intros ->. split; [reflexivity|].
    destruct (Str.is_empty (version_after "Edg/" userAgent)); reflexivity.
Qed.

(** *** The geo resolver *)

(** The events of a resolver call: one request to the geolocation
    service, then at most the report of a failure. *)
Lemma fetchAlternateGeoData_events (net : Network) :
  requested LOGGING_ENDPOINT (snd (fetchAlternateGeoData net)) = false.
Proof.
  unfold fetchAlternateGeoData, fetch, response_json.
  destruct (net ALTERNATE_IP_API_URL None) as [e|r]; [reflexivity|].
  cbn [bind]. destruct (ok r); cbn [negb throw ret bind try_catch].
  2: reflexivity.
  destruct (json r) as [geoData|e]; [|reflexivity].
  destruct (nullish geoData) eqn:Hn.
  { destruct geoData; try discriminate; reflexivity. }
  rewrite (get_prop_defined _ "status" Hn), bind_ret.
  destruct (truthy (field geoData "status")
            && strict_eq_str (field geoData "status") "success").
  - repeat (rewrite get_prop_defined, bind_ret by exact Hn).
    destruct (ToString (field geoData "lat")); [|reflexivity].
    rewrite bind_lift_return, get_prop_defined, bind_ret by exact Hn.
    destruct (ToString (field geoData "lon"));
      [rewrite bind_lift_return, get_prop_defined, bind_ret by exact Hn|];
      reflexivity.
  - rewrite get_prop_defined, bind_ret by exact Hn.
    destruct (ToString _); reflexivity.
Qed.

(** What a successful resolver call has received and what it returns. *)
Lemma fetchAlternateGeoData_returns (net : Network) (geo : jsval) (t : list event) :
  fetchAlternateGeoData net = (Return geo, t) ->
  exists r geoData lat_text lon_text,
    net ALTERNATE_IP_API_URL None = Resolved r /\ ok r = true
    /\ json r = Return geoData
    /\ strict_eq_str (field geoData "status") "success" = true
    /\ ToString (field geoData "lat") = Return lat_text
    /\ ToString (field geoData "lon") = Return lon_text
    /\ geo = JObj [
         ("ip", field geoData "query");
         ("org", field geoData "isp");
         ("asn", field geoData "as");
         ("countryCode", field geoData "countryCode");
         ("region", field geoData "regionName");
         ("city", field geoData "city");
         ("zip", field geoData "zip");
         ("coords", JStr (lat_text ++ "," ++ lon_text));
         ("timezone", field geoData "timezone");
         ("apiSource", JStr "ip-api.com")]
    /\ t = [Fetched ALTERNATE_IP_API_URL None].
Proof.
  unfold fetchAlternateGeoData, fetch, response_json.
  destruct (net ALTERNATE_IP_API_URL None) as [e|r]; [discriminate|].
  cbn [bind]. destruct (ok r) eqn:Hok; cbn [negb throw ret bind try_catch].
  2: discriminate.
  destruct (json r) as [geoData|e] eqn:Hj; [|discriminate].
  intros H.
  destruct (nullish geoData) eqn:Hn.
  { destruct geoData; discriminate. }
  rewrite (get_prop_defined _ "status" Hn), bind_ret in H.
  destruct (truthy (field geoData "status")
            && strict_eq_str (field geoData "status") "success") eqn:Hc.
  - apply andb_prop in Hc. destruct Hc as [_ Hc].
    repeat (rewrite get_prop_defined, bind_ret in H by exact Hn).
    destruct (ToString (field geoData "lat")) as [lat_text|] eqn:Hlat;
      [|discriminate].
    rewrite bind_lift_return, get_prop_defined, bind_ret in H by exact Hn.
    destruct (ToString (field geoData "lon")) as [lon_text|] eqn:Hlon;
      [|discriminate].
    rewrite bind_lift_return, get_prop_defined, bind_ret in H by exact Hn.
    cbn [ret app try_catch] in H. injection H as <- <-.
    exists r, geoData, lat_text, lon_text.
    repeat split; try reflexivity; assumption.
  - rewrite get_prop_defined, bind_ret in H by exact Hn.
    destruct (ToString _); discriminate.
Qed.

(** C6: when the service answers OK with the body of the example, the
    resolver returns the renamed record, with coords "1,2" and apiSource
    "ip-api.com", after one request. *)
Theorem fetchAlternateGeoData_example (net : Network) (st : Z) :
  net ALTERNATE_IP_API_URL None
    = Resolved {| status := st; json := Return geo_success |} ->
  (200 <= st <= 299)%Z ->
  fetchAlternateGeoData net
  = (Return (JObj [
       ("ip", JStr "1.2.3.4");
       ("org", JStr "ACME");
       ("asn", JStr "AS1 ACME");
       ("countryCode", JStr "US");
       ("region", JStr "CA");
       ("city", JStr "X");
       ("zip", JStr "90000");
       ("coords", JStr "1,2");
       ("timezone", JStr "UTC");
       ("apiSource", JStr "ip-api.com")]),
     [Fetched ALTERNATE_IP_API_URL None]).
Proof.
  intros Hnet Hst. unfold fetchAlternateGeoData, fetch. rewrite Hnet.
  cbn [bind]. rewrite (ok_in_range _ _ Hst). reflexivity.
Qed.


(** *** The transmitter *)

(** C8: whatever the network does, the transmitter returns a boolean and
    does not throw: true when the response is OK, false when it is not
    (as for status 500) and when the request is rejected. *)
Theorem sendDataToLog_never_throws (net : Network) (data : jsval) :
  (exists t,
     sendDataToLog net data
     = (Return match net LOGGING_ENDPOINT (Some (log_request data)) with
               | Resolved r => ok r
               | Rejected _ => false
               end, t))
  /\ (forall j, exists t,
        sendDataToLog (fun _ _ => Resolved {| status := 500; json := j |}) data
        = (Return false, t))
  /\ (forall e, exists t,
        sendDataToLog (fun _ _ => Rejected e) data = (Return false, t)).
Proof.
  split; [|split].
  - unfold sendDataToLog, fetch.
    destruct (net LOGGING_ENDPOINT (Some (log_request data))) as [e|r].
    + eexists; reflexivity.
    + cbn [bind]. destruct (ok r); eexists; reflexivity.
  - intros j. eexists; reflexivity.
  - intros e. eexists; reflexivity.
Qed.

(** The first event of a transmitter call is the request that carries the
    serialized data, and the call returns. *)
Lemma sendDataToLog_request (net : Network) (data : jsval) :
  exists b t,
    sendDataToLog net data
    = (Return b, Fetched LOGGING_ENDPOINT (Some (log_request data)) :: t).
Proof.
  unfold sendDataToLog, fetch.
  destruct (net LOGGING_ENDPOINT (Some (log_request data))) as [e|r].
  - eexists; eexists; reflexivity.
  - cbn [bind]. destruct (ok r); eexists; eexists; reflexivity.
Qed.

(** *** The local profiler *)

Lemma toFixed_10_25 (q : Q) :
  (q == 10.25)%Q -> num_truthy (Finite q) = true /\ toFixed (Finite q) 1 = "10.3".
Proof.
  intros Hq.
  assert (Hpos : (0 < q)%Q) by (rewrite Hq; reflexivity).
  assert (Hnum : (0 < Qnum q)%Z).
  { unfold Qlt in Hpos. cbn in Hpos. lia. }
  split.
  - cbn [num_truthy]. apply negb_true_iff, Z.eqb_neq. lia.
  - cbn [toFixed].
    replace (Qnum q <? 0)%Z with false by (symmetry; apply Z.ltb_ge; lia).
    assert (Ha : (Qabs q == 10.25)%Q).
    { rewrite Hq. reflexivity. }
    replace (Qle_bool ten_pow_21 (Qabs q)) with false.
    2:{ symmetry. apply not_true_is_false. intros Hle.
        apply Qle_bool_iff in Hle. rewrite Ha in Hle.
        vm_compute in Hle. exact (Hle eq_refl). }
    replace (Qfloor (Qabs q * inject_Z (10 ^ Z.of_nat 1) + (1 # 2))) with 103%Z.
    2:{ symmetry. transitivity (Qfloor (10.25 * inject_Z (10 ^ Z.of_nat 1) + (1 # 2))).
        - apply Qfloor_comp. rewrite Ha. reflexivity.
        - reflexivity. }
    reflexivity.
Qed.

(** The profile that a call has built: the time was formatted, and the
    profile is the object literal of the source. *)
Ltac built H :=
  unfold collectClientData in H; cbv zeta in H;
  match type of H with
  | context [toLocaleTimeString ?d ?l] =>
      destruct (toLocaleTimeString d l) eqn:?;
      [injection H as <- | discriminate H]
  end.

(** C9: with a connection object whose effective type is "4g" and whose
    downlink is 10.25, the network descriptor of the profile is
    "4G (10.3 Mbps)"; with no connection object it is "N/A (N/A)". *)
Theorem connectionSpeed_rendering
  (env env' : Browser) (c : NetworkInformation) (q : Q)
  (clientName profile profile' : jsval) :
  connection_of (navigator env) = Some c ->
  effectiveType c = Some "4g" ->
  downlink c = Some (Finite q) ->
  (q == 10.25)%Q ->
  connection_of (navigator env') = None ->
  collectClientData env clientName = Return profile ->
  collectClientData env' clientName = Return profile' ->
  field profile "connectionSpeed" = JStr "4G (10.3 Mbps)"
  /\ field profile' "connectionSpeed" = JStr "N/A (N/A)".
Proof.
  intros Hc He Hd Hq Hn Hp Hp'.
  destruct (toFixed_10_25 q Hq) as [Ht Hf].
  built Hp. built Hp'. rewrite Hc, He, Hd, Hn, Ht, Hf.
  split; reflexivity.
Qed.

(** C10: a connection object, wherever the browser exposes it, whose
    downlink is 0 or whose effective type is the empty string gives the
    same profile as one without that signal: that part of the descriptor
    reads "N/A". *)
Theorem falsy_signal_reads_as_absent
  (env env' : Browser) (c c' : NetworkInformation) (clientName : jsval) :
  same_but_connection env env' ->
  connection_of (navigator env) = Some c ->
  connection_of (navigator env') = Some c' ->
  (forall p, downlink c = Some (Finite (0 # p)) -> downlink c' = None ->
             effectiveType c = effectiveType c' ->
             collectClientData env clientName
             = collectClientData env' clientName)
  /\ (effectiveType c = Some EmptyString -> effectiveType c' = None ->
      downlink c = downlink c' ->
      collectClientData env clientName = collectClientData env' clientName)
  /\ (forall p profile,
        downlink c = Some (Finite (0 # p)) ->
        collectClientData env clientName = Return profile ->
        exists tier,
          field profile "connectionSpeed" = JStr (tier ++ " (N/A)"))
  /\ (forall profile,
        effectiveType c = Some EmptyString ->
        collectClientData env clientName = Return profile ->
        exists speed,
          field profile "connectionSpeed" = JStr ("N/A (" ++ speed ++ ")"))
  /\ (forall p profile,
        effectiveType c = Some EmptyString ->
        downlink c = Some (Finite (0 # p)) ->
        collectClientData env clientName = Return profile ->
        field profile "connectionSpeed" = JStr "N/A (N/A)").
Proof.
  intros (Hu & Hl & Hs & Hn) Hc Hc'.
  split; [|split; [|split; [|split]]].
  - intros p Hd Hd' He. unfold collectClientData.
    rewrite Hu, Hl, Hs, Hn, Hc, Hc', Hd, Hd', He. reflexivity.
  - intros He He' Hd. unfold collectClientData.
    rewrite Hu, Hl, Hs, Hn, Hc, Hc', Hd, He, He'. reflexivity.
  - intros p profile Hd Hp. built Hp. rewrite Hc, Hd.
    eexists. reflexivity.
  - intros profile He Hp. built Hp. rewrite Hc, He.
    eexists. reflexivity.
  - intros p profile He Hd Hp. built Hp. rewrite Hc, He, Hd. reflexivity.
Qed.

(** *** The orchestrator *)

(** C2: when the resolver throws, the run returns null and no request to
    the logging endpoint is among its events: the transmitter is not
    called.  When the profile was built, the events are the start line,
    those of the resolver, and the report of its error. *)
Theorem resolver_failure_aborts
  (net : Network) (env : Browser) (clientName : jsval)
  (e : JsError) (t : list event) :
  fetchAlternateGeoData net = (Throw e, t) ->
  fst (runAlternateDataTransfer net env clientName) = Return JNull
  /\ requested LOGGING_ENDPOINT
       (snd (runAlternateDataTransfer net env clientName)) = false
  /\ (forall clientData,
        collectClientData env clientName = Return clientData ->
        runAlternateDataTransfer net env clientName
        = (Return JNull,
           ([ConsoleLog
               "Starting data collection and transfer using Alternate API structure..."]
            ++ t
            ++ [ConsoleError ("Data transfer process failed: " ++ message e)
                             None])%list)).
Proof.
  intros H.
  pose proof (fetchAlternateGeoData_events net) as Ht. rewrite H in Ht.
  cbn [snd] in Ht.
  unfold runAlternateDataTransfer.
  destruct (collectClientData env clientName) as [clientData|ce].
  - rewrite bind_lift_return, H.
    cbn [bind try_catch console_log console_error emit ret fst snd].
    split; [reflexivity|]. split.
    + rewrite !requested_app, Ht. reflexivity.
    + intros clientData' _. reflexivity.
  - cbn [lift bind try_catch console_log console_error emit ret fst snd app].
    split; [reflexivity|]. split; [reflexivity|]. discriminate.
Qed.

(** C3: when the profile is built, the resolver returns and the
    transmitter returns false, the run does not throw: it logs the failure
    and returns the merged payload, the ten fields of the profile followed
    by the ten fields of the geo record. *)
Theorem transmission_failure_returns_payload
  (net : Network) (env : Browser) (clientName clientData geo : jsval)
  (t t' : list event) :
  collectClientData env clientName = Return clientData ->
  fetchAlternateGeoData net = (Return geo, t) ->
  sendDataToLog net (spread [clientData; geo]) = (Return false, t') ->
  runAlternateDataTransfer net env clientName
  = (Return (spread [clientData; geo]),
     ([ConsoleLog
         "Starting data collection and transfer using Alternate API structure..."]
      ++ t ++ t' ++ [ConsoleLog "Data transfer failed."])%list)
  /\ spread [clientData; geo]
     = JObj (map (fun k => (k, field clientData k)) client_keys
             ++ map (fun k => (k, field geo k)) geo_keys)%list.
Proof.
  intros Hp Hg Hs. split.
  - unfold runAlternateDataTransfer.
    rewrite Hp, bind_lift_return, Hg.
    cbn [bind try_catch console_log emit]. rewrite Hs.
    cbn [bind ret app console_log emit try_catch]. reflexivity.
  - destruct (fetchAlternateGeoData_returns net geo t Hg)
      as (_ & geoData & lat_text & lon_text & _ & _ & _ & _ & _ & _ & -> & _).
    built Hp. reflexivity.
Qed.

(** C1, as the code has it: when the profile is built and the resolver
    returns, the run returns the merged payload and hands it to the
    transmitter; the payload has the ten keys of the profile and then the
    ten keys of the geo record.  The name is the given one, or "Anonymous"
    for [undefined], and every other field of the profile is a string;
    browserLanguage is the language, or "N/A" when there is none or it is
    empty; connectionSpeed is "N/A (N/A)" without a connection object, and
    has "N/A" for a part whose signal the connection object lacks.  coords
    and apiSource are strings; each of the eight other geo fields is the
    property of the response it is renamed from, as received, [undefined]
    when the response lacks it. *)
Theorem merged_payload_fields
  (net : Network) (env : Browser) (clientName clientData geo : jsval)
  (t : list event) :
  collectClientData env clientName = Return clientData ->
  fetchAlternateGeoData net = (Return geo, t) ->
  let payload := spread [clientData; geo] in
  fst (runAlternateDataTransfer net env clientName) = Return payload
  /\ In (Fetched LOGGING_ENDPOINT (Some (log_request payload)))
        (snd (runAlternateDataTransfer net env clientName))
  /\ keys payload = (client_keys ++ geo_keys)%list
  /\ field payload "name"
     = match clientName with JUndefined => JStr "Anonymous" | _ => clientName end
  /\ (forall k, In k client_keys -> k <> "name" ->
                is_string (field payload k) = true)
  /\ field payload "browserLanguage"
     = JStr match nav_language (navigator env) with
            | Some l => if Str.is_empty l then "N/A" else l
            | None => "N/A"
            end
  /\ (connection_of (navigator env) = None ->
      field payload "connectionSpeed" = JStr "N/A (N/A)")
  /\ (forall c, connection_of (navigator env) = Some c ->
                effectiveType c = None ->
                exists speed,
                  field payload "connectionSpeed"
                  = JStr ("N/A (" ++ speed ++ ")"))
  /\ (forall c, connection_of (navigator env) = Some c ->
                downlink c = None ->
                exists tier,
                  field payload "connectionSpeed" = JStr (tier ++ " (N/A)"))
  /\ is_string (field payload "coords") = true
  /\ field payload "apiSource" = JStr "ip-api.com"
  /\ exists r geoData,
       net ALTERNATE_IP_API_URL None = Resolved r
       /\ json r = Return geoData
       /\ field payload "ip" = field geoData "query"
       /\ field payload "org" = field geoData "isp"
       /\ field payload "asn" = field geoData "as"
       /\ field payload "countryCode" = field geoData "countryCode"
       /\ field payload "region" = field geoData "regionName"
       /\ field payload "city" = field geoData "city"
       /\ field payload "zip" = field geoData "zip"
       /\ field payload "timezone" = field geoData "timezone".
Proof.
  intros Hp Hg payload.
  assert (Hrun : exists b t',
             runAlternateDataTransfer net env clientName
             = (Return payload,
                (ConsoleLog
                   "Starting data collection and transfer using Alternate API structure..."
                 :: t ++ Fetched LOGGING_ENDPOINT (Some (log_request payload))
                         :: t' ++ [ConsoleLog b])%list)).
  { unfold runAlternateDataTransfer. rewrite Hp, bind_lift_return, Hg.
    cbn [bind try_catch console_log emit]. fold payload.
    destruct (sendDataToLog_request net payload) as (b & t' & ->).
    destruct b; cbn [bind ret app emit console_log try_catch];
      eexists; eexists; reflexivity. }
  destruct Hrun as (b & t' & Hrun).
  destruct (fetchAlternateGeoData_returns net geo t Hg)
    as (r & geoData & lat_text & lon_text
        & Hnet & _ & Hj & _ & _ & _ & Hgeo & _).
  split; [rewrite Hrun; reflexivity|].
  split.
  { rewrite Hrun. cbn [snd]. right. apply in_or_app. right. left. reflexivity. }
  subst payload. rewrite Hgeo. built Hp.
  split; [reflexivity|]. split; [reflexivity|]. split.
  { intros k Hin Hk. cbn [client_keys In] in Hin.
    repeat (destruct Hin as [<-|Hin]; [try reflexivity; contradiction|]).
    contradiction. }
  split.
  { change (field _ "browserLanguage")
      with (JStr match nav_language (navigator env) with
                 | Some l => if negb (Str.is_empty l) then l else "N/A"
                 | None => "N/A"
                 end).
    destruct (nav_language (navigator env)) as [l|]; [|reflexivity].
    destruct (Str.is_empty l); reflexivity. }
  split.
  { intros Hc. rewrite Hc. reflexivity. }
  split.
  { intros c Hc He. rewrite Hc, He. eexists. reflexivity. }
  split.
  { intros c Hc Hd. rewrite Hc, Hd. eexists. reflexivity. }
  split; [reflexivity|]. split; [reflexivity|].
  exists r, geoData. repeat split; assumption || reflexivity.
Qed.

(** ** Further properties of the program *)

(** *** Classification *)

(** X1: the operating system is decided by the first token found, in the
    order Win, Android, Mac, Linux, CrOS, iPhone or iPad: each label is
    returned exactly when its token occurs and no earlier one does.  So a
    user agent that names "Mac", as those of iPhones do, is never iOS. *)
Theorem getOperatingSystem_first_match (userAgent : string) :
  (getOperatingSystem userAgent = "Windows"
   <-> Str.includes userAgent "Win" = true)
  /\ (getOperatingSystem userAgent = "Android"
      <-> Str.includes userAgent "Win" = false
          /\ Str.includes userAgent "Android" = true)
  /\ (getOperatingSystem userAgent = "macOS (Apple)"
      <-> Str.includes userAgent "Win" = false
          /\ Str.includes userAgent "Android" = false
          /\ Str.includes userAgent "Mac" = true)
  /\ (getOperatingSystem userAgent = "Linux"
      <-> Str.includes userAgent "Win" = false
          /\ Str.includes userAgent "Android" = false
          /\ Str.includes userAgent "Mac" = false
          /\ Str.includes userAgent "Linux" = true)
  /\ (getOperatingSystem userAgent = "Chrome OS"
      <-> Str.includes userAgent "Win" = false
          /\ Str.includes userAgent "Android" = false
          /\ Str.includes userAgent "Mac" = false
          /\ Str.includes userAgent "Linux" = false
          /\ Str.includes userAgent "CrOS" = true)
  /\ (getOperatingSystem userAgent = "iOS (Apple)"
      <-> Str.includes userAgent "Win" = false
          /\ Str.includes userAgent "Android" = false
          /\ Str.includes userAgent "Mac" = false
          /\ Str.includes userAgent "Linux" = false
          /\ Str.includes userAgent "CrOS" = false
          /\ (Str.includes userAgent "iPhone" = true
              \/ Str.includes userAgent "iPad" = true))
  /\ (getOperatingSystem userAgent = "Unknown/Other"
      <-> Str.includes userAgent "Win" = false
          /\ Str.includes userAgent "Android" = false
          /\ Str.includes userAgent "Mac" = false
          /\ Str.includes userAgent "Linux" = false
          /\ Str.includes userAgent "CrOS" = false
          /\ Str.includes userAgent "iPhone" = false
          /\ Str.includes userAgent "iPad" = false).
Proof.
  unfold getOperatingSystem.
  destruct (Str.includes userAgent "Win"), (Str.includes userAgent "Android"),
    (Str.includes userAgent "Mac"), (Str.includes userAgent "Linux"),
    (Str.includes userAgent "CrOS"), (Str.includes userAgent "iPhone"),
    (Str.includes userAgent "iPad"); cbn [orb];
    repeat split; intros; try reflexivity; try discriminate;
    intuition (discriminate || auto).
Qed.

Lemma take_digits_all (s : string) : all_digits (Str.take_digits s) = true.
Proof.
  induction s as [|c s IH]; [reflexivity|]. cbn [Str.take_digits].
  destruct (Str.is_digit c) eqn:D; [|reflexivity].
  cbn [all_digits]. rewrite D, IH. reflexivity.
Qed.

Lemma take_digits_split (s : string) :
  exists rest, s = Str.take_digits s ++ rest /\ starts_with_digit rest = false.
Proof.
  induction s as [|c s (rest & E & R)].
  - exists EmptyString. split; reflexivity.
  - cbn [Str.take_digits]. destruct (Str.is_digit c) eqn:D.
    + exists rest. split; [|exact R]. cbn [append]. rewrite <- E. reflexivity.
    + exists (String c s). split; [reflexivity|]. exact D.
Qed.

Lemma drop_length_app (t b : string) : Str.drop (String.length t) (t ++ b) = b.
Proof. induction t as [|c t IH]; [reflexivity | exact IH]. Qed.

Lemma match_digits_after_unfold (label s : string) :
  Str.match_digits_after label s
  = let here :=
      if String.prefix label s
      then Str.take_digits (Str.drop (String.length label) s)
      else EmptyString in
    match here with
    | String _ _ => Some here
    | EmptyString =>
        match s with
        | EmptyString => None
        | String _ s' => Str.match_digits_after label s'
        end
    end.
Proof. destruct s; reflexivity. Qed.

(** A match of [/label(\d+)/] gives digits that stand in the string right
    after [label], up to the first code unit that is not a digit. *)
Lemma match_digits_after_sound (label s d : string) :
  Str.match_digits_after label s = Some d ->
  Str.is_empty d = false /\ all_digits d = true
  /\ exists a rest, s = a ++ label ++ d ++ rest
                    /\ starts_with_digit rest = false.
Proof.
  induction s as [|c s IH]; rewrite match_digits_after_unfold; cbv zeta.
  - destruct (String.prefix label EmptyString) eqn:P.
    + destruct (prefix_split _ _ P) as [b E].
      destruct label; [|discriminate]. discriminate.
    + discriminate.
  - destruct (String.prefix label (String c s)) eqn:P.
    + destruct (prefix_split _ _ P) as [b E]. rewrite E, drop_length_app.
      destruct (Str.take_digits b) eqn:T.
      * rewrite <- E. intros H. destruct (IH H) as (N & A & a & rest & -> & R).
        split; [exact N|]. split; [exact A|].
        exists (String c a), rest. split; [reflexivity | exact R].
      * intros H. injection H as <-. split; [reflexivity|].
        split; [rewrite <- T; apply take_digits_all|].
        destruct (take_digits_split b) as (rest & Eb & R).
        exists EmptyString, rest. split; [|exact R].
        rewrite <- T, <- Eb. reflexivity.
    + intros H. destruct (IH H) as (N & A & a & rest & -> & R).
      split; [exact N|]. split; [exact A|].
      exists (String c a), rest. split; [reflexivity | exact R].
Qed.

(** [/label(\d+)/] matches wherever [label] is followed by a digit. *)
Lemma match_digits_after_complete (label a rest : string) (c : ascii) :
  Str.is_digit c = true ->
  Str.match_digits_after label (a ++ label ++ String c rest) <> None.
Proof.
  intros D. induction a as [|x a IH].
  - rewrite match_digits_after_unfold; cbv zeta.
    cbn [append]. rewrite prefix_app, drop_length_app.
    cbn [Str.take_digits]. rewrite D. discriminate.
  - change (String x a ++ label ++ String c rest)
      with (String x (a ++ label ++ String c rest)).
    rewrite match_digits_after_unfold; cbv zeta.
    destruct (if String.prefix label (String x (a ++ label ++ String c rest))
              then Str.take_digits
                     (Str.drop (String.length label)
                        (String x (a ++ label ++ String c rest)))
              else EmptyString).
    + exact IH.
    + discriminate.
Qed.

Lemma version_after_digits (label userAgent : string) :
  all_digits (version_after label userAgent) = true.
Proof.
  unfold version_after.
  destruct (Str.match_digits_after label userAgent) as [d|] eqn:M; [|reflexivity].
  apply (match_digits_after_sound _ _ _ M).
Qed.

(** X4: the version that [getBrowser] reads after a label such as "Chrome/"
    or "Version/", when there is one, is a run of digits that stands in
    the user agent right after that label and ends where the digits end. *)
Theorem version_after_occurs (label userAgent : string) :
  Str.is_empty (version_after label userAgent) = false ->
  all_digits (version_after label userAgent) = true
  /\ exists a rest,
       userAgent = a ++ label ++ version_after label userAgent ++ rest
       /\ starts_with_digit rest = false.
Proof.
  unfold version_after.
  destruct (Str.match_digits_after label userAgent) as [d|] eqn:M;
    [|discriminate].
  intros _. destruct (match_digits_after_sound _ _ _ M) as (_ & A & H).
  split; assumption.
Qed.

(** X5: there is a version exactly when the label is followed by a digit
    somewhere in the user agent; "Chrome/" with no digit after it gives
    none. *)
Theorem version_after_found_iff (label userAgent : string) :
  Str.is_empty (version_after label userAgent) = false
  <-> exists a c rest,
        userAgent = a ++ label ++ String c rest /\ Str.is_digit c = true.
Proof.
  unfold version_after. split.
  - destruct (Str.match_digits_after label userAgent) as [d|] eqn:M;
      [|discriminate].
    intros _.
    destruct (match_digits_after_sound _ _ _ M) as (N & A & a & rest & E & _).
    destruct d as [|c d]; [discriminate|].
    cbn [all_digits] in A. apply andb_prop in A. destruct A as [D _].
    exists a, c, (d ++ rest). split; [exact E | exact D].
  - intros (a & c & rest & -> & D).
    pose proof (match_digits_after_complete label a rest c D) as H.
    destruct (Str.match_digits_after label (a ++ label ++ String c rest))
      as [d|] eqn:M; [|contradiction].
    apply (match_digits_after_sound _ _ _ M).
Qed.

(** X2: the name that [getBrowser] gives is decided by the first test that
    holds: Chrome needs "Chrome" without "Edg"; Firefox comes next; Safari
    needs "Safari" without "Chrome", so the user agents of Chrome, which
    name Safari, are not Safari; then Edge, then Internet Explorer. *)
Theorem getBrowser_first_match (userAgent : string) :
  let chrome :=
    Str.includes userAgent "Chrome" && negb (Str.includes userAgent "Edg") in
  let firefox := Str.includes userAgent "Firefox" in
  let safari :=
    Str.includes userAgent "Safari" && negb (Str.includes userAgent "Chrome") in
  let edge := Str.includes userAgent "Edg" in
  let explorer :=
    Str.includes userAgent "MSIE" || Str.includes userAgent "Trident" in
  String.prefix "Chrome" (getBrowser userAgent) = chrome
  /\ String.prefix "Firefox" (getBrowser userAgent) = negb chrome && firefox
  /\ String.prefix "Safari" (getBrowser userAgent)
     = negb chrome && negb firefox && safari
  /\ String.prefix "Edge" (getBrowser userAgent)
     = negb chrome && negb firefox && negb safari && edge
  /\ String.prefix "Internet Explorer" (getBrowser userAgent)
     = negb chrome && negb firefox && negb safari && negb edge && explorer
  /\ (getBrowser userAgent = "Unknown"
      <-> chrome || firefox || safari || edge || explorer = false).
Proof.
  cbv zeta. unfold getBrowser, browser_label.
  destruct (Str.includes userAgent "Chrome"), (Str.includes userAgent "Edg"),
    (Str.includes userAgent "Firefox"), (Str.includes userAgent "Safari"),
    (Str.includes userAgent "MSIE"), (Str.includes userAgent "Trident");
    cbn [andb orb negb Str.is_empty];
    repeat match goal with
           | |- context [Str.is_empty ?v] => destruct (Str.is_empty v)
           end;
    cbn [append]; repeat split; intros; try reflexivity; discriminate.
Qed.

(** X3: whatever the user agent, [getBrowser] gives one of six names, alone
    or followed by " (v" digits ")"; Internet Explorer and Unknown never
    carry a version. *)
Theorem getBrowser_shape (userAgent : string) :
  exists browser version,
    In browser browser_names
    /\ getBrowser userAgent = browser_label browser version
    /\ all_digits version = true
    /\ (browser = "Internet Explorer" \/ browser = "Unknown" ->
        version = EmptyString).
Proof.
  unfold getBrowser.
  destruct (Str.includes userAgent "Chrome" && negb (Str.includes userAgent "Edg")).
  { exists "Chrome", (version_after "Chrome/" userAgent).
    split; [cbn; tauto|]. split; [reflexivity|].
    split; [apply version_after_digits|]. intros [H|H]; discriminate. }
  destruct (Str.includes userAgent "Firefox").
  { exists "Firefox", (version_after "Firefox/" userAgent).
    split; [cbn; tauto|]. split; [reflexivity|].
    split; [apply version_after_digits|]. intros [H|H]; discriminate. }
  destruct (Str.includes userAgent "Safari"
            && negb (Str.includes userAgent "Chrome")).
  { exists "Safari", (version_after "Version/" userAgent).
    split; [cbn; tauto|]. split; [reflexivity|].
    split; [apply version_after_digits|]. intros [H|H]; discriminate. }
  destruct (Str.includes userAgent "Edg").
  { exists "Edge", (version_after "Edg/" userAgent).
    split; [cbn; tauto|]. split; [reflexivity|].
    split; [apply version_after_digits|]. intros [H|H]; discriminate. }
  destruct (Str.includes userAgent "MSIE" || Str.includes userAgent "Trident").
  { exists "Internet Explorer", EmptyString.
    split; [cbn; tauto|]. repeat split. }
  exists "Unknown", EmptyString. split; [cbn; tauto|]. repeat split.
Qed.

Lemma fold_case_app (a b : string) :
  Str.fold_case (a ++ b) = Str.fold_case a ++ Str.fold_case b.
Proof.
  induction a as [|c a IH]; [reflexivity|].
  cbn [append Str.fold_case]. rewrite IH. reflexivity.
Qed.

Lemma includes_fold_case (s t : string) :
  Str.includes s t = true ->
  Str.includes (Str.fold_case s) (Str.fold_case t) = true.
Proof.
  intros H. destruct (includes_split _ _ H) as (a & b & ->).
  rewrite !fold_case_app. apply includes_app.
Qed.

Lemma mobile_os_tokens (userAgent : string) :
  getOperatingSystem userAgent = "Android"
  \/ getOperatingSystem userAgent = "iOS (Apple)" ->
  Str.includes userAgent "Android" = true
  \/ Str.includes userAgent "iPhone" = true
  \/ Str.includes userAgent "iPad" = true.
Proof.
  unfold getOperatingSystem.
  destruct (Str.includes userAgent "Win"), (Str.includes userAgent "Android"),
    (Str.includes userAgent "Mac"), (Str.includes userAgent "Linux"),
    (Str.includes userAgent "CrOS"), (Str.includes userAgent "iPhone"),
    (Str.includes userAgent "iPad"); cbn [orb];
    intros [H|H]; try discriminate; auto.
Qed.

(** *** The local profiler *)

(** X6: the two classifications of the profile agree on mobile systems:
    when the os field is Android or iOS, the deviceType field is
    "Mobile/Tablet". *)
Theorem mobile_os_is_mobile_device
  (env : Browser) (clientName profile : jsval) :
  collectClientData env clientName = Return profile ->
  field profile "os" = JStr "Android"
  \/ field profile "os" = JStr "iOS (Apple)" ->
  field profile "deviceType" = JStr "Mobile/Tablet".
Proof.
  intros Hp. built Hp.
  change (field _ "os")
    with (JStr (getOperatingSystem (nav_userAgent (navigator env)))).
  change (field _ "deviceType")
    with (JStr (if Str.test_any_ci
                     ["Mobi"; "Android"; "iPhone"; "iPad"; "Windows Phone"]
                     (nav_userAgent (navigator env))
                then "Mobile/Tablet" else "Desktop")).
  intros H.
  assert (T : getOperatingSystem (nav_userAgent (navigator env)) = "Android"
              \/ getOperatingSystem (nav_userAgent (navigator env))
                 = "iOS (Apple)").
  { destruct H as [H|H]; injection H as H; auto. }
  unfold Str.test_any_ci. cbn [existsb].
  destruct (mobile_os_tokens _ T) as [I|[I|I]];
    rewrite (includes_fold_case _ _ I), ?orb_true_r; reflexivity.
Qed.


(** *** The geo resolver *)

(** X8: a resolver call issues one request, to the geolocation address and
    without options.  It returns after that request alone, or throws an
    error whose message is the fixed prefix followed by the message of the
    cause, after one report of that cause on the console. *)
Theorem fetchAlternateGeoData_outcomes (net : Network) :
  (exists geo,
     fetchAlternateGeoData net
     = (Return geo, [Fetched ALTERNATE_IP_API_URL None]))
  \/ (exists cause,
        fetchAlternateGeoData net
        = (Throw (Error ("Failed to retrieve alternate geolocation data: "
                         ++ message cause)),
           [Fetched ALTERNATE_IP_API_URL None;
            ConsoleError "Error fetching data from alternate API:"
                         (Some cause)])).
Proof.
  unfold fetchAlternateGeoData, fetch, response_json.
  destruct (net ALTERNATE_IP_API_URL None) as [e|r].
  { right. exists e. reflexivity. }
  cbn [bind]. destruct (ok r); cbn [negb throw ret bind try_catch].
  2:{ right. eexists. reflexivity. }
  destruct (json r) as [geoData|e].
  2:{ right. exists e. reflexivity. }
  destruct (nullish geoData) eqn:Hn.
  { right. destruct geoData; try discriminate; eexists; reflexivity. }
  rewrite (get_prop_defined _ "status" Hn), bind_ret.
  destruct (truthy (field geoData "status")
            && strict_eq_str (field geoData "status") "success").
  - repeat (rewrite get_prop_defined, bind_ret by exact Hn).
    destruct (ToString (field geoData "lat")) as [lat_text|e].
    2:{ right. exists e. reflexivity. }
    rewrite bind_lift_return, get_prop_defined, bind_ret by exact Hn.
    destruct (ToString (field geoData "lon")) as [lon_text|e].
    2:{ right. exists e. reflexivity. }
    rewrite bind_lift_return, get_prop_defined, bind_ret by exact Hn.
    left. eexists. reflexivity.
  - right. rewrite get_prop_defined, bind_ret by exact Hn.
    destruct (ToString _) as [text|e]; eexists; reflexivity.
Qed.

(** X9: the resolver returns exactly when the answer is OK, its body
    decodes, the status property of the body is the string "success", and
    its lat and lon properties can be printed. *)
Theorem fetchAlternateGeoData_returns_iff (net : Network) :
  (exists geo t, fetchAlternateGeoData net = (Return geo, t))
  <-> exists r geoData lat_text lon_text,
        net ALTERNATE_IP_API_URL None = Resolved r
        /\ ok r = true
        /\ json r = Return geoData
        /\ field geoData "status" = JStr "success"
        /\ ToString (field geoData "lat") = Return lat_text
        /\ ToString (field geoData "lon") = Return lon_text.
Proof.
  split.
  - intros (geo & t & H).
    destruct (fetchAlternateGeoData_returns net geo t H)
      as (r & geoData & lat_text & lon_text
          & Hnet & Hok & Hj & Hs & Hlat & Hlon & _).
    exists r, geoData, lat_text, lon_text. repeat split; try assumption.
    destruct (field geoData "status"); try discriminate.
    cbn [strict_eq_str] in Hs. apply String.eqb_eq in Hs. now subst.
  - intros (r & geoData & lat_text & lon_text
            & Hnet & Hok & Hj & Hs & Hlat & Hlon).
    unfold fetchAlternateGeoData, fetch, response_json.
    rewrite Hnet. cbn [bind]. rewrite Hok, Hj.
    cbn [negb ret bind].
    assert (Hn : nullish geoData = false).
    { destruct geoData; try reflexivity; discriminate. }
    rewrite (get_prop_defined _ "status" Hn), bind_ret, Hs.
    cbn [truthy strict_eq_str Str.is_empty negb andb String.eqb Ascii.eqb Bool.eqb].
    repeat (rewrite get_prop_defined, bind_ret by exact Hn).
    rewrite Hlat, bind_lift_return, get_prop_defined, bind_ret by exact Hn.
    rewrite Hlon, bind_lift_return, get_prop_defined, bind_ret by exact Hn.
    eexists; eexists. reflexivity.
Qed.

(** X10: a status outside 200-299 makes the resolver throw with the status
    code in the message; the body of the answer is not read. *)
Theorem fetchAlternateGeoData_http_error (net : Network) (r : Response) :
  net ALTERNATE_IP_API_URL None = Resolved r ->
  ok r = false ->
  fetchAlternateGeoData net
  = (Throw (Error ("Failed to retrieve alternate geolocation data: "
                   ++ "HTTP error from ip-api.com! Status: "
                   ++ Str.of_Z (status r))),
     [Fetched ALTERNATE_IP_API_URL None;
      ConsoleError "Error fetching data from alternate API:"
        (Some (Error ("HTTP error from ip-api.com! Status: "
                      ++ Str.of_Z (status r))))]).
Proof.
  intros Hnet Hok. unfold fetchAlternateGeoData, fetch.
  rewrite Hnet. cbn [bind]. rewrite Hok. reflexivity.
Qed.

(** X11: a rejected request and a body that does not decode both surface as
    the wrapped error: the fixed prefix, then the message of the cause. *)
Theorem fetchAlternateGeoData_wraps_cause (net : Network) (cause : JsError) :
  net ALTERNATE_IP_API_URL None = Rejected cause
  \/ (exists st, (200 <= st <= 299)%Z
                 /\ net ALTERNATE_IP_API_URL None
                    = Resolved {| status := st; json := Throw cause |}) ->
  fetchAlternateGeoData net
  = (Throw (Error ("Failed to retrieve alternate geolocation data: "
                   ++ message cause)),
     [Fetched ALTERNATE_IP_API_URL None;
      ConsoleError "Error fetching data from alternate API:" (Some cause)]).
Proof.
  unfold fetchAlternateGeoData, fetch, response_json.
  intros [Hnet|(st & Hst & Hnet)]; rewrite Hnet; [reflexivity|].
  cbn [bind]. rewrite (ok_in_range _ _ Hst). reflexivity.
Qed.

(** X12: a body that decodes to null has no status to read: the resolver
    throws the wrapped TypeError of the engine, not the fallback
    message. *)
Theorem fetchAlternateGeoData_null_body (net : Network) (st : Z) :
  net ALTERNATE_IP_API_URL None
    = Resolved {| status := st; json := Return JNull |} ->
  (200 <= st <= 299)%Z ->
  fetchAlternateGeoData net
  = (Throw (Error ("Failed to retrieve alternate geolocation data: "
                   ++ cannot_read_property JNull "status")),
     [Fetched ALTERNATE_IP_API_URL None;
      ConsoleError "Error fetching data from alternate API:"
        (Some (Error (cannot_read_property JNull "status")))]).
Proof.
  intros Hnet Hst. unfold fetchAlternateGeoData, fetch, response_json.
  rewrite Hnet. cbn [bind]. rewrite (ok_in_range _ _ Hst). reflexivity.
Qed.

(** *** The transmitter *)

(** X13: a transmitter call causes two events: one request to the logging
    endpoint, a POST of the serialized data with the JSON content type,
    then one console line, a log when the answer is OK, an error with the
    status code when it is not, an error with the cause when the request
    is rejected.  The body of the answer plays no part. *)
Theorem sendDataToLog_events (net : Network) (data : jsval) :
  method (log_request data) = "POST"
  /\ headers (log_request data) = [("Content-Type", "application/json")]
  /\ body (log_request data) = JSON_stringify data
  /\ sendDataToLog net data
     = match net LOGGING_ENDPOINT (Some (log_request data)) with
       | Resolved r =>
           if ok r
           then (Return true,
                 [Fetched LOGGING_ENDPOINT (Some (log_request data));
                  ConsoleLog
                    "User data successfully logged to external service."])
           else (Return false,
                 [Fetched LOGGING_ENDPOINT (Some (log_request data));
                  ConsoleError ("Failed to log data. Status: "
                                ++ Str.of_Z (status r) ++ ".") None])
       | Rejected e =>
           (Return false,
            [Fetched LOGGING_ENDPOINT (Some (log_request data));
             ConsoleError "Error during data logging fetch operation:"
                          (Some e)])
       end.
Proof.
  repeat split. unfold sendDataToLog, fetch.
  destruct (net LOGGING_ENDPOINT (Some (log_request data))) as [e|r];
    [reflexivity|].
  cbn [bind]. destruct (ok r); reflexivity.
Qed.

(** *** The orchestrator *)

(** X14: a run never throws, whatever the network and the browser do: it
    returns null exactly when building the profile throws or the resolver
    throws, and an object otherwise. *)
Theorem runAlternateDataTransfer_never_throws
  (net : Network) (env : Browser) (clientName : jsval) :
  exists v t,
    runAlternateDataTransfer net env clientName = (Return v, t)
    /\ (v = JNull
        <-> (exists e, collectClientData env clientName = Throw e)
            \/ (exists e t', fetchAlternateGeoData net = (Throw e, t')))
    /\ (v <> JNull -> exists l, v = JObj l).
Proof.
  unfold runAlternateDataTransfer.
  destruct (collectClientData env clientName) as [clientData|ce].
  2:{ eexists; eexists. split; [reflexivity|]. split.
      - split; [intros _; left; exists ce; reflexivity | reflexivity].
      - intros H; contradiction. }
  rewrite bind_lift_return.
  destruct (fetchAlternateGeoData net) as [[geo|e] t0] eqn:Hg.
  - cbn [bind try_catch console_log emit].
    destruct (sendDataToLog_request net (spread [clientData; geo]))
      as (b & t' & ->).
    destruct b; cbn [bind ret app emit console_log try_catch];
      eexists; eexists; (split; [reflexivity|]); split;
      try (split; [discriminate
                  | intros [(e & H)|(e & t'' & H)]; discriminate]);
      intros _; eexists; reflexivity.
  - eexists; eexists. split; [reflexivity|]. split.
    + split; [intros _; right; exists e, t0; reflexivity | reflexivity].
    + intros H; contradiction.
Qed.

(** X15: when the profile is built and the resolver returns, the run
    issues two requests, the one to the geolocation service and then one
    POST of the serialized merged payload to the logging endpoint, reports
    the outcome of the transfer, and returns the payload whether the
    transfer succeeded or not. *)
Theorem runAlternateDataTransfer_success_events
  (net : Network) (env : Browser) (clientName clientData geo : jsval)
  (t : list event) :
  collectClientData env clientName = Return clientData ->
  fetchAlternateGeoData net = (Return geo, t) ->
  exists (success : bool) (report : event) (sent : string),
    body (log_request (spread [clientData; geo])) = Some sent
    /\ sendDataToLog net (spread [clientData; geo])
       = (Return success,
          [Fetched LOGGING_ENDPOINT
             (Some (log_request (spread [clientData; geo])));
           report])
    /\ runAlternateDataTransfer net env clientName
       = (Return (spread [clientData; geo]),
          [ConsoleLog
             "Starting data collection and transfer using Alternate API structure...";
           Fetched ALTERNATE_IP_API_URL None;
           Fetched LOGGING_ENDPOINT
             (Some (log_request (spread [clientData; geo])));
           report;
           ConsoleLog
             (if success
              then "Full payload successfully transferred to logging server."
              else "Data transfer failed.")]).
Proof.
  intros Hp Hg.
  destruct (fetchAlternateGeoData_returns net geo t Hg)
    as (_ & _ & _ & _ & _ & _ & _ & _ & _ & _ & _ & ->).
  set (payload := spread [clientData; geo]).
  assert (Hs : exists success report,
             sendDataToLog net payload
             = (Return success,
                [Fetched LOGGING_ENDPOINT (Some (log_request payload)); report])).
  { unfold sendDataToLog, fetch.
    destruct (net LOGGING_ENDPOINT (Some (log_request payload))) as [e|r].
    - eexists; eexists; reflexivity.
    - cbn [bind]. destruct (ok r); eexists; eexists; reflexivity. }
  destruct Hs as (success & report & Hs).
  assert (Hb : exists sent, body (log_request payload) = Some sent).
  { eexists. reflexivity. }
  destruct Hb as (sent & Hb).
  exists success, report, sent. split; [exact Hb|]. split; [exact Hs|].
  unfold runAlternateDataTransfer. rewrite Hp, bind_lift_return, Hg.
  cbn [bind try_catch console_log emit]. fold payload. rewrite Hs.
  destruct success; reflexivity.
Qed.

(** X16: the transmitter is called exactly in the runs in which the
    profile is built and the resolver returns: a request to the logging
    endpoint is among the events of a run if and only if both succeeded. *)
Theorem transmitter_called_iff
  (net : Network) (env : Browser) (clientName : jsval) :
  requested LOGGING_ENDPOINT
    (snd (runAlternateDataTransfer net env clientName)) = true
  <-> (exists clientData, collectClientData env clientName = Return clientData)
      /\ (exists geo t, fetchAlternateGeoData net = (Return geo, t)).
Proof.
  pose proof (fetchAlternateGeoData_events net) as He.
  unfold runAlternateDataTransfer.
  destruct (collectClientData env clientName) as [clientData|ce].
  2:{ cbn [lift bind try_catch console_log console_error emit ret snd app].
      split; [discriminate | intros [(cd & H) _]; discriminate]. }
  rewrite bind_lift_return.
  destruct (fetchAlternateGeoData net) as [[geo|e] t0] eqn:Hg; cbn [snd] in He.
  - split.
    { intros _. split; [exists clientData | exists geo, t0]; reflexivity. }
    intros _. cbn [bind try_catch console_log emit].
    destruct (sendDataToLog_request net (spread [clientData; geo]))
      as (b & t' & ->).
    destruct (fetchAlternateGeoData_returns net geo t0 Hg)
      as (_ & _ & _ & _ & _ & _ & _ & _ & _ & _ & _ & ->).
    destruct b; reflexivity.
  - split; [|intros [_ (geo & t & H)]; discriminate].
    cbn [bind try_catch console_log console_error emit ret snd].
    rewrite !requested_app, He. discriminate.
Qed.

(** X17: the keys of the profile and of the geo record are twenty
    different names, so the merge overwrites nothing: the payload holds
    every field of the profile and every field of the geo record as they
    were. *)
Theorem merged_payload_preserves
  (net : Network) (env : Browser) (clientName clientData geo : jsval)
  (t : list event) :
  collectClientData env clientName = Return clientData ->
  fetchAlternateGeoData net = (Return geo, t) ->
  NoDup (client_keys ++ geo_keys)
  /\ (forall k, In k client_keys ->
        field (spread [clientData; geo]) k = field clientData k)
  /\ (forall k, In k geo_keys ->
        field (spread [clientData; geo]) k = field geo k).
Proof.
  intros Hp Hg.
  destruct (fetchAlternateGeoData_returns net geo t Hg)
    as (_ & geoData & lat_text & lon_text & _ & _ & _ & _ & _ & _ & -> & _).
  split.
  { cbn [client_keys geo_keys app].
    repeat (constructor;
            [cbn [In]; intros H;
             repeat (destruct H as [H|H]; [discriminate|]); exact H|]).
    constructor. }
  built Hp. split; intros k Hin;
    cbn [client_keys geo_keys In] in Hin;
    repeat (destruct Hin as [<-|Hin]; [reflexivity|]); contradiction.
Qed.

(** X18: when building the profile throws, as when the host rejects the
    language tag, the run reports that error and returns null without
    issuing any request: the resolver is not called. *)
Theorem profile_failure_aborts
  (net : Network) (env : Browser) (clientName : jsval) (e : JsError) :
  collectClientData env clientName = Throw e ->
  runAlternateDataTransfer net env clientName
  = (Return JNull,
     [ConsoleLog
        "Starting data collection and transfer using Alternate API structure...";
      ConsoleError ("Data transfer process failed: " ++ message e) None]).
Proof.
  intros Hp. unfold runAlternateDataTransfer. rewrite Hp. reflexivity.
Qed.


(** X20: a success body whose lat is an object with a property named
    toString cannot be printed into coords: the resolver throws the
    engine's TypeError, wrapped, instead of returning a record. *)
Theorem fetchAlternateGeoData_unprintable_lat
  (net : Network) (st : Z) (geoData : jsval) (l : list (string * jsval)) :
  net ALTERNATE_IP_API_URL None
    = Resolved {| status := st; json := Return geoData |} ->
  (200 <= st <= 299)%Z ->
  field geoData "status" = JStr "success" ->
  field geoData "lat" = JObj l ->
  has_own "toString" l = true ->
  fetchAlternateGeoData net
  = (Throw (Error ("Failed to retrieve alternate geolocation data: "
                   ++ cannot_convert)),
     [Fetched ALTERNATE_IP_API_URL None;
      ConsoleError "Error fetching data from alternate API:"
        (Some (Error cannot_convert))]).
Proof.
  intros Hnet Hst Hs Hlat Hl.
  assert (Hn : nullish geoData = false).
  { destruct geoData; try reflexivity; discriminate. }
  unfold fetchAlternateGeoData, fetch, response_json. rewrite Hnet.
  cbn [bind]. rewrite (ok_in_range _ _ Hst). cbn [negb ret bind json].
  rewrite (get_prop_defined _ "status" Hn), bind_ret, Hs.
  cbn [truthy strict_eq_str Str.is_empty negb andb String.eqb Ascii.eqb Bool.eqb].
  repeat (rewrite get_prop_defined, bind_ret by exact Hn).
  rewrite Hlat. cbn [ToString]. rewrite Hl. reflexivity.
Qed.

End Host.

(** ** The statements at the sample inputs *)

(** The Windows Phone user agent contains "Android" and is classified as
    Windows: C4 needs the absence of "Win". *)
Lemma android_in_windows_phone :
  Str.includes ua_windows_phone "Android" = true
  /\ getOperatingSystem ua_windows_phone = "Windows"
  /\ getOperatingSystem ua_windows_phone <> "Android".
Proof. repeat split. discriminate. Qed.

Lemma getOperatingSystem_android_witness :
  Str.includes ua_android "Android" = true
  /\ Str.includes ua_android "Win" = false
  /\ getOperatingSystem ua_android = "Android".
Proof.
  split; [reflexivity|]. split; [reflexivity|].
  apply (getOperatingSystem_android ua_android); reflexivity.
Defined.

(** A user agent with "Chrome", "Edg" and "Firefox" is classified as
    Firefox: C5 needs the absence of "Firefox". *)
Lemma chrome_edg_with_firefox :
  Str.includes ua_chrome_edg_firefox "Chrome" = true
  /\ Str.includes ua_chrome_edg_firefox "Edg" = true
  /\ getBrowser ua_chrome_edg_firefox = "Firefox (v89)"
  /\ String.prefix "Edge" (getBrowser ua_chrome_edg_firefox) = false.
Proof. repeat split. Qed.

Lemma getBrowser_chrome_edg_witness :
  Str.includes ua_edge "Chrome" = true
  /\ Str.includes ua_edge "Edg" = true
  /\ Str.includes ua_edge "Firefox" = false
  /\ getBrowser ua_edge = "Edge (v91)"
  /\ String.prefix "Chrome" (getBrowser ua_edge) = false.
Proof.
  split; [reflexivity|]. split; [reflexivity|]. split; [reflexivity|].
  destruct (getBrowser_chrome_edg ua_edge eq_refl eq_refl) as [HC HE].
  split; [|exact HC].
  destruct (HE eq_refl) as [E _]. rewrite E. reflexivity.
Defined.

Lemma fetchAlternateGeoData_example_witness :
  sample_net geo_success 500 ALTERNATE_IP_API_URL None
    = Resolved {| status := 200; json := Return geo_success |}
  /\ (200 <= 200 <= 299)%Z
  /\ fetchAlternateGeoData sample_decimal v8_cannot_read
         v8_cannot_convert (sample_net geo_success 500)
     = (Return (JObj [
          ("ip", JStr "1.2.3.4");
          ("org", JStr "ACME");
          ("asn", JStr "AS1 ACME");
          ("countryCode", JStr "US");
          ("region", JStr "CA");
          ("city", JStr "X");
          ("zip", JStr "90000");
          ("coords", JStr "1,2");
          ("timezone", JStr "UTC");
          ("apiSource", JStr "ip-api.com")]),
        [Fetched ALTERNATE_IP_API_URL None]).
Proof.
  split; [reflexivity|]. split; [lia|].
  apply (fetchAlternateGeoData_example sample_decimal v8_cannot_read
           v8_cannot_convert (sample_net geo_success 500) 200);
    [reflexivity | lia].
Defined.


Lemma connectionSpeed_rendering_witness :
  connection_of (navigator (sample_browser (Some conn_4g))) = Some conn_4g
  /\ effectiveType conn_4g = Some "4g"
  /\ downlink conn_4g = Some (Finite 10.25)
  /\ connection_of (navigator (sample_browser None)) = None
  /\ exists profile profile',
       collectClientData sample_decimal sample_upper (sample_browser (Some conn_4g)) JUndefined = Return profile
       /\ collectClientData sample_decimal sample_upper (sample_browser None) JUndefined = Return profile'
       /\ field profile "connectionSpeed" = JStr "4G (10.3 Mbps)"
       /\ field profile' "connectionSpeed" = JStr "N/A (N/A)".
Proof.
  split; [reflexivity|]. split; [reflexivity|]. split; [reflexivity|].
  split; [reflexivity|].
  eexists; eexists. split; [reflexivity|]. split; [reflexivity|].
  apply (connectionSpeed_rendering sample_decimal sample_upper
           (sample_browser (Some conn_4g)) (sample_browser None)
           conn_4g 10.25 JUndefined); reflexivity.
Defined.

(** The connection object is exposed as [mozConnection] on one side and
    as [connection] on the other. *)
Lemma falsy_signal_reads_as_absent_witness :
  let c := {| effectiveType := Some "4g"; downlink := Some (Finite 0) |} in
  let c' := {| effectiveType := Some "4g"; downlink := None |} in
  same_but_connection (moz_browser c) (sample_browser (Some c'))
  /\ connection_of (navigator (moz_browser c)) = Some c
  /\ connection_of (navigator (sample_browser (Some c'))) = Some c'
  /\ collectClientData sample_decimal sample_upper (moz_browser c) JUndefined
     = collectClientData sample_decimal sample_upper (sample_browser (Some c')) JUndefined
  /\ exists profile,
       collectClientData sample_decimal sample_upper (moz_browser c) JUndefined = Return profile
       /\ field profile "connectionSpeed" = JStr "4G (N/A)".
Proof.
  intros c c'.
  split; [repeat split|]. split; [reflexivity|]. split; [reflexivity|].
  destruct (falsy_signal_reads_as_absent sample_decimal sample_upper
              (moz_browser c) (sample_browser (Some c')) c c' JUndefined)
    as (H & _); [repeat split | reflexivity | reflexivity |].
  split.
  - apply (H 1%positive); reflexivity.
  - eexists. split; reflexivity.
Defined.

Lemma resolver_failure_aborts_witness :
  (exists e t, fetchAlternateGeoData sample_decimal v8_cannot_read
         v8_cannot_convert (sample_net geo_fail 200) = (Throw e, t))
  /\ fst (runAlternateDataTransfer sample_decimal v8_cannot_read
         v8_cannot_convert sample_upper (sample_net geo_fail 200) (sample_browser None) (JStr "Ann"))
     = Return JNull
  /\ requested LOGGING_ENDPOINT
       (snd (runAlternateDataTransfer sample_decimal v8_cannot_read
         v8_cannot_convert sample_upper (sample_net geo_fail 200) (sample_browser None) (JStr "Ann")))
     = false.
Proof.
  split; [eexists; eexists; reflexivity|].
  destruct (resolver_failure_aborts sample_decimal v8_cannot_read
              v8_cannot_convert sample_upper
              (sample_net geo_fail 200) (sample_browser None) (JStr "Ann")
              _ _ eq_refl) as (E & H & _).
  split; [exact E | exact H].
Defined.

Lemma transmission_failure_returns_payload_witness :
  exists clientData geo t t',
    collectClientData sample_decimal sample_upper (sample_browser None) (JStr "Ann") = Return clientData
    /\ fetchAlternateGeoData sample_decimal v8_cannot_read
         v8_cannot_convert (sample_net geo_success 500) = (Return geo, t)
    /\ sendDataToLog sample_decimal (sample_net geo_success 500) (spread [clientData; geo])
       = (Return false, t')
    /\ fst (runAlternateDataTransfer sample_decimal v8_cannot_read
         v8_cannot_convert sample_upper (sample_net geo_success 500) (sample_browser None) (JStr "Ann"))
       = Return (spread [clientData; geo])
    /\ field (spread [clientData; geo]) "name" = JStr "Ann"
    /\ field (spread [clientData; geo]) "coords" = JStr "1,2".
Proof.
  eexists; eexists; eexists; eexists.
  split; [reflexivity|]. split; [reflexivity|]. split; [reflexivity|].
  destruct (transmission_failure_returns_payload sample_decimal v8_cannot_read
              v8_cannot_convert sample_upper
              (sample_net geo_success 500) (sample_browser None) (JStr "Ann")
              _ _ _ _ eq_refl eq_refl eq_refl) as [E P].
  split; [rewrite E; reflexivity|]. rewrite P. split; reflexivity.
Defined.

(** The service answers with success and nothing else: the geo fields of
    the payload are [undefined], coords is built from two of them, and the
    serialized body that is sent has no "ip" member: C1 does not hold for
    the geo record. *)
Lemma geo_fields_undefined :
  match fst (runAlternateDataTransfer sample_decimal v8_cannot_read
         v8_cannot_convert sample_upper (sample_net geo_bare 200) (sample_browser None) (JStr "Ann")) with
  | Return payload =>
      In "ip" (keys payload)
      /\ populated (field payload "ip") = false
      /\ field payload "coords" = JStr "undefined,undefined"
      /\ option_map (fun sent => Str.includes sent (quote "ip"))
           (body (log_request sample_decimal payload)) = Some false
      /\ option_map (fun sent => Str.includes sent (quote "coords"))
           (body (log_request sample_decimal payload)) = Some true
  | Throw _ => False
  end.
Proof. vm_compute. intuition. Qed.

Lemma merged_payload_fields_witness :
  exists clientData geo t,
    collectClientData sample_decimal sample_upper (sample_browser None) JUndefined = Return clientData
    /\ fetchAlternateGeoData sample_decimal v8_cannot_read
         v8_cannot_convert (sample_net geo_success 200) = (Return geo, t)
    /\ keys (spread [clientData; geo]) = (client_keys ++ geo_keys)%list
    /\ field (spread [clientData; geo]) "name" = JStr "Anonymous"
    /\ field (spread [clientData; geo]) "browserLanguage" = JStr "en-US"
    /\ field (spread [clientData; geo]) "connectionSpeed" = JStr "N/A (N/A)"
    /\ field (spread [clientData; geo]) "ip" = JStr "1.2.3.4".
Proof.
  eexists; eexists; eexists.
  split; [reflexivity|]. split; [reflexivity|].
  destruct (merged_payload_fields sample_decimal v8_cannot_read
              v8_cannot_convert sample_upper
              (sample_net geo_success 200) (sample_browser None)
              JUndefined _ _ _ eq_refl eq_refl)
    as (_ & _ & Hk & Hn & _ & Hl & Hc & _ & _ & _ & _
        & r & geoData & Hr & Hj & Hip & _).
  split; [exact Hk|]. split; [exact Hn|]. split; [exact Hl|].
  split; [exact (Hc eq_refl)|].
  rewrite Hip. injection Hr as <-. injection Hj as <-. reflexivity.
Defined.

(** ** The further properties at the sample inputs *)

Lemma version_after_occurs_witness :
  Str.is_empty (version_after "Edg/" ua_edge) = false
  /\ version_after "Edg/" ua_edge = "91"
  /\ exists a rest,
       ua_edge = a ++ "Edg/" ++ version_after "Edg/" ua_edge ++ rest
       /\ starts_with_digit rest = false.
Proof.
  split; [reflexivity|]. split; [reflexivity|].
  apply (version_after_occurs "Edg/" ua_edge). reflexivity.
Defined.

Lemma mobile_os_is_mobile_device_witness :
  exists profile,
    collectClientData sample_decimal sample_upper (sample_browser None) JUndefined = Return profile
    /\ field profile "os" = JStr "Android"
    /\ field profile "deviceType" = JStr "Mobile/Tablet".
Proof.
  eexists. split; [reflexivity|]. split; [reflexivity|].
  apply (mobile_os_is_mobile_device sample_decimal sample_upper
           (sample_browser None) JUndefined _ eq_refl).
  left. reflexivity.
Defined.


Lemma fetchAlternateGeoData_http_error_witness :
  ok {| status := 404; json := Return geo_success |} = false
  /\ exists t,
       fetchAlternateGeoData sample_decimal v8_cannot_read
         v8_cannot_convert (net_status 404 (Return geo_success))
       = (Throw (Error "Failed to retrieve alternate geolocation data: HTTP error from ip-api.com! Status: 404"),
          t).
Proof.
  split; [reflexivity|]. eexists.
  apply (fetchAlternateGeoData_http_error sample_decimal v8_cannot_read
           v8_cannot_convert (net_status 404 (Return geo_success))
           {| status := 404; json := Return geo_success |});
    reflexivity.
Defined.

Lemma fetchAlternateGeoData_wraps_cause_witness :
  net_down (Error "Failed to fetch") ALTERNATE_IP_API_URL None
    = Rejected (Error "Failed to fetch")
  /\ exists t,
       fetchAlternateGeoData sample_decimal v8_cannot_read
         v8_cannot_convert (net_down (Error "Failed to fetch"))
       = (Throw (Error "Failed to retrieve alternate geolocation data: Failed to fetch"),
          t).
Proof.
  split; [reflexivity|]. eexists.
  apply (fetchAlternateGeoData_wraps_cause sample_decimal v8_cannot_read
           v8_cannot_convert
           (net_down (Error "Failed to fetch")) (Error "Failed to fetch")).
  left. reflexivity.
Defined.

Lemma fetchAlternateGeoData_null_body_witness :
  net_status 200 (Return JNull) ALTERNATE_IP_API_URL None
    = Resolved {| status := 200; json := Return JNull |}
  /\ (200 <= 200 <= 299)%Z
  /\ exists t,
       fetchAlternateGeoData sample_decimal v8_cannot_read
         v8_cannot_convert (net_status 200 (Return JNull))
       = (Throw (Error "Failed to retrieve alternate geolocation data: Cannot read properties of null (reading 'status')"),
          t).
Proof.
  split; [reflexivity|]. split; [lia|]. eexists.
  apply (fetchAlternateGeoData_null_body sample_decimal v8_cannot_read
           v8_cannot_convert (net_status 200 (Return JNull)) 200);
    [reflexivity | lia].
Defined.

Lemma runAlternateDataTransfer_success_events_witness :
  exists clientData geo t,
    collectClientData sample_decimal sample_upper (sample_browser None) (JStr "Ann") = Return clientData
    /\ fetchAlternateGeoData sample_decimal v8_cannot_read
         v8_cannot_convert (sample_net geo_success 200) = (Return geo, t)
    /\ fst (runAlternateDataTransfer sample_decimal v8_cannot_read
         v8_cannot_convert sample_upper (sample_net geo_success 200) (sample_browser None) (JStr "Ann"))
       = Return (spread [clientData; geo])
    /\ List.length
         (snd (runAlternateDataTransfer sample_decimal v8_cannot_read
         v8_cannot_convert sample_upper (sample_net geo_success 200) (sample_browser None)
                 (JStr "Ann"))) = 5%nat.
Proof.
  eexists; eexists; eexists.
  split; [reflexivity|]. split; [reflexivity|].
  destruct (runAlternateDataTransfer_success_events sample_decimal
              v8_cannot_read v8_cannot_convert sample_upper
              (sample_net geo_success 200)
              (sample_browser None) (JStr "Ann") _ _ _ eq_refl eq_refl)
    as (success & report & sent & _ & _ & E).
  rewrite E. split; reflexivity.
Defined.

Lemma merged_payload_preserves_witness :
  exists clientData geo t,
    collectClientData sample_decimal sample_upper (sample_browser None) (JStr "Ann") = Return clientData
    /\ fetchAlternateGeoData sample_decimal v8_cannot_read
         v8_cannot_convert (sample_net geo_success 200) = (Return geo, t)
    /\ field (spread [clientData; geo]) "name" = JStr "Ann"
    /\ field (spread [clientData; geo]) "city" = JStr "X".
Proof.
  eexists; eexists; eexists.
  split; [reflexivity|]. split; [reflexivity|].
  destruct (merged_payload_preserves sample_decimal v8_cannot_read
              v8_cannot_convert sample_upper
              (sample_net geo_success 200) (sample_browser None) (JStr "Ann")
              _ _ _ eq_refl eq_refl) as (_ & Hc & Hg).
  split.
  - rewrite (Hc "name"); [reflexivity | cbn; tauto].
  - rewrite (Hg "city"); [reflexivity | cbn; tauto].
Defined.

(** With the empty string as its language the sample browser rejects the
    tag: the run ends before any request, on a healthy network. *)
Lemma profile_failure_aborts_witness :
  collectClientData sample_decimal sample_upper browser_without_language (JStr "Ann")
    = Throw (Error "Incorrect locale information provided")
  /\ (exists geo t, fetchAlternateGeoData sample_decimal v8_cannot_read
         v8_cannot_convert (sample_net geo_success 200) = (Return geo, t))
  /\ runAlternateDataTransfer sample_decimal v8_cannot_read
         v8_cannot_convert sample_upper (sample_net geo_success 200) browser_without_language (JStr "Ann")
     = (Return JNull,
        [ConsoleLog
           "Starting data collection and transfer using Alternate API structure...";
         ConsoleError
           "Data transfer process failed: Incorrect locale information provided"
           None]).
Proof.
  split; [reflexivity|]. split; [eexists; eexists; reflexivity|].
  apply (profile_failure_aborts sample_decimal v8_cannot_read
           v8_cannot_convert sample_upper
           (sample_net geo_success 200) browser_without_language (JStr "Ann")
           (Error "Incorrect locale information provided")).
  reflexivity.
Defined.

Lemma fetchAlternateGeoData_unprintable_lat_witness :
  let geoData :=
    JObj [("status", JStr "success");
          ("lat", JObj [("toString", JNum (Finite 1))]);
          ("lon", JNum (Finite 2))] in
  net_status 200 (Return geoData) ALTERNATE_IP_API_URL None
    = Resolved {| status := 200; json := Return geoData |}
  /\ field geoData "status" = JStr "success"
  /\ field geoData "lat" = JObj [("toString", JNum (Finite 1))]
  /\ has_own "toString" [("toString", JNum (Finite 1))] = true
  /\ exists t,
       fetchAlternateGeoData sample_decimal v8_cannot_read
         v8_cannot_convert (net_status 200 (Return geoData))
       = (Throw (Error "Failed to retrieve alternate geolocation data: Cannot convert object to primitive value"),
          t).
Proof.
  intros geoData.
  split; [reflexivity|]. split; [reflexivity|]. split; [reflexivity|].
  split; [reflexivity|]. eexists.
  apply (fetchAlternateGeoData_unprintable_lat sample_decimal v8_cannot_read
           v8_cannot_convert (net_status 200 (Return geoData)) 200 geoData
           [("toString", JNum (Finite 1))]); try reflexivity. lia.
Defined.
